(** * Missing Records Detection API: reconciliation engine and its access layer

    A shallow embedding of [app/models.py], [app/schemas.py],
    [app/services.py] and [app/api/endpoints.py].

    - Python [int] is [Z]; [str] is [string]; [Optional[T]] is [option T];
      [float] is the binary64 [float] of the kernel, so that the processing
      rate is computed with the very roundings of the running program.
    - A Python [set] of integers is a [gset Z]; a query result ([.all()]) is
      the [list] of matching rows in storage order.
    - The SQLAlchemy session is an explicit store threaded through a small
      state-and-exception monad [M]; [raise] and [try]/[except] are the
      monad's operations.
    - The timestamp columns ([created_at], [updated_at]) are filled by the
      database server and read by no operation of the services; they are
      left out of the rows. *)

From Stdlib Require Import ZArith Floats Uint63.
From stdpp Require Import gmap strings list sorting pretty.

Local Open Scope Z_scope.

(** ** app/models.py *)

Inductive RecordStatus := EXPECTED | PROCESSED.

Inductive RecordType := ORDER | TRANSACTION | FILE | SHIPMENT | PAYMENT.

#[global] Instance RecordStatus_eq_dec : EqDecision RecordStatus.
Proof. solve_decision. Defined.

#[global] Instance RecordType_eq_dec : EqDecision RecordType.
Proof. solve_decision. Defined.

(** Rows of table [batches]. *)
Module Batch.
Record t := mk {
  id : Z;
  batch_name : string;
  record_type : RecordType;
  description : option string
}.
End Batch.

(** Rows of table [records] (class [Record]). The free-text column is called
    [record_metadata], as the services and the schemas call it. *)
Module Rec.
Record t := mk {
  id : Z;
  record_id : Z;
  batch_id : Z;
  status : RecordStatus;
  record_metadata : option string
}.
End Rec.

#[global] Instance Batch_eq_dec : EqDecision Batch.t.
Proof. solve_decision. Defined.

#[global] Instance Rec_eq_dec : EqDecision Rec.t.
Proof. solve_decision. Defined.

(** ** app/schemas.py *)

Record BatchCreate := {
  bc_batch_name : string;
  bc_record_type : RecordType;
  bc_description : option string
}.

Record RecordCreate := {
  rc_record_id : Z;
  rc_status : RecordStatus;
  rc_record_metadata : option string
}.

Record RecordBulkUpload := {
  bu_batch_id : Z;
  bu_records : list RecordCreate
}.

Record MissingRecordsResult := {
  mr_batch_id : Z;
  mr_batch_name : string;
  total_expected : Z;
  total_processed : Z;
  missing_count : Z;
  missing_records : list Z;
  processing_rate : float;
  unexpected_count : Z;
  unexpected_records : list Z
}.

Record ProcessingStatusResult := {
  ps_batch_id : Z;
  ps_batch_name : string;
  ps_record_type : RecordType;
  expected_records : list Z;
  processed_records : list Z;
  expected_count : Z;
  processed_count : Z
}.

Record BatchStatistics := {
  st_batch_id : Z;
  st_batch_name : string;
  total_records : Z;
  st_expected_count : Z;
  st_processed_count : Z;
  st_missing_count : Z;
  st_processing_rate : float
}.

Record MessageResponse := {
  message : string;
  details : list (string * Z)
}.

(** ** The session: stored rows and the two primary-key sequences *)

Record Session := {
  batches : list Batch.t;
  records : list Rec.t;
  next_batch_id : Z;
  next_record_id : Z
}.

(** Python exceptions that the services, the store and the endpoints
    raise. *)
Inductive exn :=
| ValueError (msg : string)
| IntegrityError (msg : string)
| AttributeError (msg : string).

(** [str(e)] *)
Definition str (e : exn) : string :=
  match e with
  | ValueError msg => msg
  | IntegrityError msg => msg
  | AttributeError msg => msg
  end.

Inductive outcome (A : Type) :=
| Returns (a : A)
| Raises (e : exn).
Arguments Returns {A} a.
Arguments Raises {A} e.

Definition M (A : Type) : Type := Session → outcome A * Session.

#[global] Instance M_ret : MRet M := λ A a db, (Returns a, db).

#[global] Instance M_bind : MBind M := λ A B k m db,
  match m db with
  | (Returns a, db') => k a db'
  | (Raises e, db') => (Raises e, db')
  end.

Definition raise {A} (e : exn) : M A := λ db, (Raises e, db).

(** ** Python built-ins used by the services *)

(** [sorted(l)] on integers. *)
Definition sorted (l : list Z) : list Z := merge_sort Z.le l.

(** [len(l)] *)
Definition len {A} (l : list A) : Z := Z.of_nat (length l).

(** [len(s)] on a set *)
Definition set_len (s : gset Z) : Z := Z.of_nat (size s).

(** [float(n)], exact for [0 ≤ n < 2^53]. The integers converted by the
    services are numbers of stored identifiers, which are in that range. *)
Definition Z2f (n : Z) : float := of_uint63 (Uint63.of_Z n).

(** Nearest integer to [n / d] ([d > 0]), halves to the even neighbour. *)
Definition round_half_even (n d : Z) : Z :=
  let q := n / d in
  let r := n mod d in
  if 2 * r <? d then q
  else if d <? 2 * r then q + 1
  else if Z.even q then q else q + 1.

(** [round(x, 2)]: CPython prints the exact binary value of [x] with two
    digits after the point, correctly rounded (halves to even), and reads
    the decimal string back as the nearest double. For a value
    [m * 2^e] the printed digits are the integer [k] nearest to
    [100 * m * 2^e]; the double nearest to [k / 100] is the correctly
    rounded quotient of the doubles [k] and [100]. Integral, infinite and
    NaN arguments are returned as they are. Exact for [|x| < 2^46]. *)
Definition round2 (x : float) : float :=
  match Prim2SF x with
  | S754_finite s m e =>
      if 0 <=? e then x
      else
        let k := round_half_even (Z.pos m * 100) (2 ^ (- e)) in
        let r := (Z2f k / Z2f 100)%float in
        if s then (- r)%float else r
  | _ => x
  end.

(** ** The SQLAlchemy calls of the services, on the explicit store *)

(** [db.query(Batch).filter(P).first()] *)
Definition query_batch_first (P : Batch.t → Prop) `{!∀ b, Decision (P b)}
  : M (option Batch.t) :=
  λ db, (Returns (head (filter P (batches db))), db).

(** [db.query(Batch).all()] *)
Definition query_batch_all : M (list Batch.t) :=
  λ db, (Returns (batches db), db).

(** [db.query(Record).filter(P).all()], also used for the one-column query
    [db.query(Record.record_id)], whose rows are read through [.record_id]. *)
Definition query_record_all (P : Rec.t → Prop) `{!∀ r, Decision (P r)}
  : M (list Rec.t) :=
  λ db, (Returns (filter P (records db)), db).

(** [db.query(func.count(Record.id)).filter(P).scalar()]: the primary key is
    never NULL, so every matching row is counted. *)
Definition query_record_count (P : Rec.t → Prop) `{!∀ r, Decision (P r)}
  : M Z :=
  λ db, (Returns (len (filter P (records db))), db).

(** [db.add(batch); db.commit(); db.refresh(batch)]. Column [batch_name] is
    declared [unique=True]: the INSERT of a taken name is refused (the text
    of the error is the driver's; here SQLite's). *)
Definition add_commit_batch (name : string) (ty : RecordType)
    (desc : option string) : M Batch.t :=
  λ db,
    if decide (name ∈ Batch.batch_name <$> batches db)
    then (Raises (IntegrityError "UNIQUE constraint failed: batches.batch_name"), db)
    else
      let batch := Batch.mk (next_batch_id db) name ty desc in
      (Returns batch,
       {| batches := batches db ++ [batch];
          records := records db;
          next_batch_id := next_batch_id db + 1;
          next_record_id := next_record_id db |}).

(** The new rows of [records], with consecutive primary keys. *)
Fixpoint number_records (next : Z) (batch_id : Z) (l : list RecordCreate)
  : list Rec.t :=
  match l with
  | [] => []
  | record_data :: l' =>
      Rec.mk next (rc_record_id record_data) batch_id (rc_status record_data)
             (rc_record_metadata record_data)
      :: number_records (next + 1) batch_id l'
  end.

(** [db.add(record); db.commit(); db.refresh(record)] *)
Definition add_commit_record (batch_id : Z) (record_data : RecordCreate)
  : M Rec.t :=
  λ db,
    let record :=
      Rec.mk (next_record_id db) (rc_record_id record_data) batch_id
             (rc_status record_data) (rc_record_metadata record_data) in
    (Returns record,
     {| batches := batches db;
        records := records db ++ [record];
        next_batch_id := next_batch_id db;
        next_record_id := next_record_id db + 1 |}).

(** [db.add_all(records); db.commit()] *)
Definition add_all_commit_records (batch_id : Z) (l : list RecordCreate)
  : M (list Rec.t) :=
  λ db,
    let rows := number_records (next_record_id db) batch_id l in
    (Returns rows,
     {| batches := batches db;
        records := records db ++ rows;
        next_batch_id := next_batch_id db;
        next_record_id := next_record_id db + len l |}).

(** [db.delete(batch); db.commit()]. Relationship [Batch.records] has
    [cascade="all, delete-orphan"]: the unit of work loads the children of
    the batch (the rows whose foreign key is the batch's id), deletes each by
    its primary key, then deletes the batch by its primary key. *)
Definition delete_commit_batch (batch : Batch.t) : M unit :=
  λ db,
    let children := filter (λ r, Rec.batch_id r = Batch.id batch) (records db) in
    let child_keys := Rec.id <$> children in
    (Returns (),
     {| batches := filter (λ b, Batch.id b ≠ Batch.id batch) (batches db);
        records := filter (λ r, Rec.id r ∉ child_keys) (records db);
        next_batch_id := next_batch_id db;
        next_record_id := next_record_id db |}).

(** [db.query(Record).filter(P).delete(); db.commit()]: number of rows
    matched. *)
Definition delete_commit_records (P : Rec.t → Prop) `{!∀ r, Decision (P r)}
  : M Z :=
  λ db,
    (Returns (len (filter P (records db))),
     {| batches := batches db;
        records := filter (λ r, ¬ P r) (records db);
        next_batch_id := next_batch_id db;
        next_record_id := next_record_id db |}).

(** ** app/services.py *)

Definition not_found_msg (batch_id : Z) : string :=
  "Batch with id " +:+ pretty batch_id +:+ " not found".

Module BatchService.

Definition create_batch (batch_data : BatchCreate) : M Batch.t :=
  add_commit_batch (bc_batch_name batch_data) (bc_record_type batch_data)
                   (bc_description batch_data).

Definition get_batch_by_id (batch_id : Z) : M (option Batch.t) :=
  query_batch_first (λ b, Batch.id b = batch_id).

Definition get_batch_by_name (batch_name : string) : M (option Batch.t) :=
  query_batch_first (λ b, Batch.batch_name b = batch_name).

Definition get_all_batches : M (list Batch.t) := query_batch_all.

Definition delete_batch (batch_id : Z) : M bool :=
  batch ← query_batch_first (λ b, Batch.id b = batch_id);
  match batch with
  | Some batch => _ ← delete_commit_batch batch; mret true
  | None => mret false
  end.

End BatchService.

Module RecordService.

Definition create_record (batch_id : Z) (record_data : RecordCreate)
  : M Rec.t :=
  add_commit_record batch_id record_data.

Definition bulk_create_records (batch_id : Z) (records_data : list RecordCreate)
  : M (list Rec.t) :=
  add_all_commit_records batch_id records_data.

Definition get_records_by_batch (batch_id : Z) : M (list Rec.t) :=
  query_record_all (λ r, Rec.batch_id r = batch_id).

Definition get_records_by_status (batch_id : Z) (status : RecordStatus)
  : M (list Rec.t) :=
  query_record_all (λ r, Rec.batch_id r = batch_id ∧ Rec.status r = status).

Definition find_missing_records (batch_id : Z) : M MissingRecordsResult :=
  batch ← query_batch_first (λ b, Batch.id b = batch_id);
  match batch with
  | None => raise (ValueError (not_found_msg batch_id))
  | Some batch =>
      expected_records ←
        query_record_all (λ r, Rec.batch_id r = batch_id ∧ Rec.status r = EXPECTED);
      let expected_ids : gset Z := list_to_set (Rec.record_id <$> expected_records) in
      processed_records ←
        query_record_all (λ r, Rec.batch_id r = batch_id ∧ Rec.status r = PROCESSED);
      let processed_ids : gset Z := list_to_set (Rec.record_id <$> processed_records) in
      let missing := expected_ids ∖ processed_ids in
      let unexpected := processed_ids ∖ expected_ids in
      let total_expected := set_len expected_ids in
      let total_processed := set_len processed_ids in
      let processing_rate :=
        if decide (total_expected > 0) then
          let successfully_processed := set_len (expected_ids ∩ processed_ids) in
          (Z2f successfully_processed / Z2f total_expected * Z2f 100)%float
        else 0%float in
      mret {| mr_batch_id := batch_id;
              mr_batch_name := Batch.batch_name batch;
              total_expected := total_expected;
              total_processed := total_processed;
              missing_count := set_len missing;
              missing_records := sorted (elements missing);
              processing_rate := round2 processing_rate;
              unexpected_count := set_len unexpected;
              unexpected_records := sorted (elements unexpected) |}
  end.

Definition get_processing_status (batch_id : Z) : M ProcessingStatusResult :=
  batch ← query_batch_first (λ b, Batch.id b = batch_id);
  match batch with
  | None => raise (ValueError (not_found_msg batch_id))
  | Some batch =>
      expected_records ←
        query_record_all (λ r, Rec.batch_id r = batch_id ∧ Rec.status r = EXPECTED);
      let expected_ids := Rec.record_id <$> expected_records in
      processed_records ←
        query_record_all (λ r, Rec.batch_id r = batch_id ∧ Rec.status r = PROCESSED);
      let processed_ids := Rec.record_id <$> processed_records in
      mret {| ps_batch_id := batch_id;
              ps_batch_name := Batch.batch_name batch;
              ps_record_type := Batch.record_type batch;
              expected_records := sorted expected_ids;
              processed_records := sorted processed_ids;
              expected_count := len expected_ids;
              processed_count := len processed_ids |}
  end.

Definition get_batch_statistics (batch_id : Z) : M BatchStatistics :=
  batch ← query_batch_first (λ b, Batch.id b = batch_id);
  match batch with
  | None => raise (ValueError (not_found_msg batch_id))
  | Some batch =>
      total_records ← query_record_count (λ r, Rec.batch_id r = batch_id);
      expected_count ←
        query_record_count (λ r, Rec.batch_id r = batch_id ∧ Rec.status r = EXPECTED);
      processed_count ←
        query_record_count (λ r, Rec.batch_id r = batch_id ∧ Rec.status r = PROCESSED);
      expected_records ←
        query_record_all (λ r, Rec.batch_id r = batch_id ∧ Rec.status r = EXPECTED);
      let expected_ids : gset Z := list_to_set (Rec.record_id <$> expected_records) in
      processed_records ←
        query_record_all (λ r, Rec.batch_id r = batch_id ∧ Rec.status r = PROCESSED);
      let processed_ids : gset Z := list_to_set (Rec.record_id <$> processed_records) in
      let missing_count := set_len (expected_ids ∖ processed_ids) in
      let processing_rate :=
        if decide (set_len expected_ids > 0) then
          let successfully_processed := set_len (expected_ids ∩ processed_ids) in
          (Z2f successfully_processed / Z2f (set_len expected_ids) * Z2f 100)%float
        else 0%float in
      mret {| st_batch_id := batch_id;
              st_batch_name := Batch.batch_name batch;
              total_records := total_records;
              st_expected_count := expected_count;
              st_processed_count := processed_count;
              st_missing_count := missing_count;
              st_processing_rate := round2 processing_rate |}
  end.

Definition clear_all_records (batch_id : Z) : M Z :=
  delete_commit_records (λ r, Rec.batch_id r = batch_id).

End RecordService.

(** ** app/api/endpoints.py *)

(** What the transport sends back: the body with its success status, or the
    [HTTPException] raised by the endpoint. *)
Inductive Response (A : Type) :=
| Success (status_code : Z) (body : A)
| HTTPException (status_code : Z) (detail : string).
Arguments Success {A} status_code body.
Arguments HTTPException {A} status_code detail.

Definition HTTP_200_OK : Z := 200.
Definition HTTP_201_CREATED : Z := 201.
Definition HTTP_400_BAD_REQUEST : Z := 400.
Definition HTTP_404_NOT_FOUND : Z := 404.
Definition HTTP_500_INTERNAL_SERVER_ERROR : Z := 500.

Definition Endpoint (A : Type) : Type := Session → Response A * Session.

(** [try: result = body; return result / except ... as e: raise handler e] *)
Definition try_except {A} (status_code : Z) (body : M A)
    (handler : exn → Z * string) : Endpoint A :=
  λ db,
    match body db with
    | (Returns result, db') => (Success status_code result, db')
    | (Raises e, db') =>
        (HTTPException (fst (handler e)) (snd (handler e)), db')
    end.

(** The two [except] clauses of the analysis endpoints: [ValueError] first,
    any other [Exception] second. *)
Definition analysis_except (failed : string) (e : exn) : Z * string :=
  match e with
  | ValueError _ => (HTTP_404_NOT_FOUND, str e)
  | _ => (HTTP_500_INTERNAL_SERVER_ERROR, failed +:+ str e)
  end.

(** No [try] around the call: an exception would leave the endpoint and the
    framework would answer with its generic server error. *)
Definition unhandled (e : exn) : Z * string :=
  (HTTP_500_INTERNAL_SERVER_ERROR, "Internal Server Error").

(** The single [except Exception] clause of the creating endpoints. *)
Definition create_except (failed : string) (e : exn) : Z * string :=
  (HTTP_400_BAD_REQUEST, failed +:+ str e).

Module Endpoints.

Definition create_batch (batch : BatchCreate) : Endpoint Batch.t :=
  λ db,
    match BatchService.get_batch_by_name (bc_batch_name batch) db with
    | (Returns (Some existing), db') =>
        (HTTPException HTTP_400_BAD_REQUEST
           ("Batch with name '" +:+ bc_batch_name batch +:+ "' already exists"),
         db')
    | (Returns None, db') =>
        try_except HTTP_201_CREATED (BatchService.create_batch batch)
                   (create_except "Failed to create batch: ") db'
    | (Raises e, db') =>
        (HTTPException (fst (unhandled e)) (snd (unhandled e)), db')
    end.

Definition get_all_batches : Endpoint (list Batch.t) :=
  try_except HTTP_200_OK BatchService.get_all_batches
             unhandled.

Definition get_batch (batch_id : Z) : Endpoint Batch.t :=
  λ db,
    match BatchService.get_batch_by_id batch_id db with
    | (Returns (Some batch), db') => (Success HTTP_200_OK batch, db')
    | (Returns None, db') =>
        (HTTPException HTTP_404_NOT_FOUND (not_found_msg batch_id), db')
    | (Raises e, db') =>
        (HTTPException (fst (unhandled e)) (snd (unhandled e)), db')
    end.

Definition delete_batch (batch_id : Z) : Endpoint MessageResponse :=
  λ db,
    match BatchService.delete_batch batch_id db with
    | (Returns true, db') =>
        (Success HTTP_200_OK
           {| message := "Successfully deleted batch " +:+ pretty batch_id;
              details := [("batch_id", batch_id)] |},
         db')
    | (Returns false, db') =>
        (HTTPException HTTP_404_NOT_FOUND (not_found_msg batch_id), db')
    | (Raises e, db') =>
        (HTTPException (fst (unhandled e)) (snd (unhandled e)), db')
    end.

(** Every record endpoint starts with the same check:
    [batch = BatchService.get_batch_by_id(db, batch_id)] and, [if not batch],
    [raise HTTPException(404, ...)]. *)
Definition verify_batch_exists {A} (batch_id : Z) (rest : Endpoint A)
  : Endpoint A :=
  λ db,
    match BatchService.get_batch_by_id batch_id db with
    | (Returns (Some batch), db') => rest db'
    | (Returns None, db') =>
        (HTTPException HTTP_404_NOT_FOUND (not_found_msg batch_id), db')
    | (Raises e, db') =>
        (HTTPException (fst (unhandled e)) (snd (unhandled e)), db')
    end.

Definition create_record (batch_id : Z) (record : RecordCreate)
  : Endpoint Rec.t :=
  verify_batch_exists batch_id
    (try_except HTTP_201_CREATED (RecordService.create_record batch_id record)
                (create_except "Failed to create record: ")).

Definition bulk_upload_records (bulk_data : RecordBulkUpload)
  : Endpoint MessageResponse :=
  verify_batch_exists (bu_batch_id bulk_data)
    (try_except HTTP_201_CREATED
       (records ←
          RecordService.bulk_create_records (bu_batch_id bulk_data)
                                            (bu_records bulk_data);
        mret {| message :=
                  "Successfully uploaded " +:+ pretty (len records) +:+ " records";
                details := [("count", len records);
                            ("batch_id", bu_batch_id bulk_data)] |})
       (create_except "Failed to bulk upload records: ")).

Definition get_records_by_batch (batch_id : Z) : Endpoint (list Rec.t) :=
  verify_batch_exists batch_id
    (try_except HTTP_200_OK (RecordService.get_records_by_batch batch_id)
                unhandled).

(** This endpoint names its path parameter [status], which hides the
    imported module [fastapi.status] in its body. In the not-found branch
    [status.HTTP_404_NOT_FOUND] is therefore an attribute lookup on the
    [RecordStatus] member: it raises [AttributeError] before the
    [HTTPException] is built, and nothing catches it. *)
Definition get_records_by_status (batch_id : Z) (status : RecordStatus)
  : Endpoint (list Rec.t) :=
  λ db,
    match BatchService.get_batch_by_id batch_id db with
    | (Returns (Some batch), db') =>
        try_except HTTP_200_OK
          (RecordService.get_records_by_status batch_id status) unhandled db'
    | (Returns None, db') =>
        let e :=
          AttributeError
            "'RecordStatus' object has no attribute 'HTTP_404_NOT_FOUND'" in
        (HTTPException (fst (unhandled e)) (snd (unhandled e)), db')
    | (Raises e, db') =>
        (HTTPException (fst (unhandled e)) (snd (unhandled e)), db')
    end.

Definition analyze_missing_records (batch_id : Z)
  : Endpoint MissingRecordsResult :=
  try_except HTTP_200_OK (RecordService.find_missing_records batch_id)
             (analysis_except "Failed to analyze missing records: ").

Definition get_processing_status (batch_id : Z)
  : Endpoint ProcessingStatusResult :=
  try_except HTTP_200_OK (RecordService.get_processing_status batch_id)
             (analysis_except "Failed to get processing status: ").

Definition get_batch_statistics (batch_id : Z) : Endpoint BatchStatistics :=
  try_except HTTP_200_OK (RecordService.get_batch_statistics batch_id)
             (analysis_except "Failed to get batch statistics: ").

Definition clear_batch_records (batch_id : Z) : Endpoint MessageResponse :=
  verify_batch_exists batch_id
    (try_except HTTP_200_OK
       (count ← RecordService.clear_all_records batch_id;
        mret {| message :=
                  "Successfully deleted all records for batch " +:+ pretty batch_id;
                details := [("deleted_count", count); ("batch_id", batch_id)] |})
       unhandled).

End Endpoints.

(** ** Vocabulary of the properties *)

(** The identifiers of the stored batches. *)
Definition batch_ids (db : Session) : list Z := Batch.id <$> batches db.

(** The names of the stored batches. *)
Definition batch_names (db : Session) : list string :=
  Batch.batch_name <$> batches db.

(** Domain identifier [x] is carried by some row of batch [batch_id] whose
    status is [st]. *)
Definition has_id (db : Session) (batch_id : Z) (st : RecordStatus) (x : Z)
  : Prop :=
  ∃ r, r ∈ records db ∧ Rec.batch_id r = batch_id ∧ Rec.status r = st
       ∧ Rec.record_id r = x.

(** The rows of batch [batch_id] with status [st], in storage order, and the
    column of their domain identifiers (one entry per row). *)
Definition rows_with (db : Session) (batch_id : Z) (st : RecordStatus)
  : list Rec.t :=
  filter (λ r, Rec.batch_id r = batch_id ∧ Rec.status r = st) (records db).

Definition id_column (db : Session) (batch_id : Z) (st : RecordStatus)
  : list Z :=
  Rec.record_id <$> rows_with db batch_id st.

(** The identifier sets of the reconciliation contract. *)
Definition id_set (db : Session) (batch_id : Z) (st : RecordStatus) : gset Z :=
  list_to_set (id_column db batch_id st).

(** [l] lists the members of a set of identifiers, each once. *)
Definition enumerates (l : list Z) (P : Z → Prop) : Prop :=
  NoDup l ∧ ∀ x, x ∈ l ↔ P x.

(** The same store with other rows in table [records]. *)
Definition with_records (db : Session) (rows : list Rec.t) : Session :=
  {| batches := batches db;
     records := rows;
     next_batch_id := next_batch_id db;
     next_record_id := next_record_id db |}.

(** *** The processing rate as the contract words it

    [100 × s / t] rounded to two decimal places, read in exact arithmetic:
    [decimal_rate rounding s t] is the double nearest to [k / 100], where [k]
    is the integer nearest to [10000 s / t], with halves to the even
    neighbour ([round_half_even]) or upwards ([round_half_up]).
    [rate_in_contract_order] is the third reading, the contract's formula
    [round(100 × s / t, 2)] evaluated in binary64 in the order it is
    written. *)
Definition round_half_up (n d : Z) : Z := (2 * n + d) / (2 * d).

Definition decimal_rate (rounding : Z → Z → Z) (s t : Z) : float :=
  if decide (t > 0) then (Z2f (rounding (10000 * s)%Z t) / Z2f 100)%float
  else 0%float.

Definition rate_in_contract_order (s t : Z) : float :=
  if decide (t > 0) then round2 (Z2f 100 * Z2f s / Z2f t)%float
  else 0%float.

(** The rate in the order of [find_missing_records]: quotient first, then
    the product with 100, then [round(_, 2)]. *)
Definition rate_in_code_order (s t : Z) : float :=
  if decide (t > 0) then round2 (Z2f s / Z2f t * Z2f 100)%float
  else 0%float.

(** [k] hundredths are a decimal with two digits nearest to the percentage
    [100 s / t]: no further from it than half a hundredth. *)
Definition nearest_hundredths (s t k : Z) : Prop :=
  2 * Z.abs (k * t - 10000 * s) ≤ t.

#[global] Instance nearest_hundredths_dec (s t k : Z) :
  Decision (nearest_hundredths s t k).
Proof. unfold nearest_hundredths. apply _. Defined.

#[global] Instance spec_float_eq_dec : EqDecision spec_float.
Proof. solve_decision. Defined.

(** Checks by computation that the rate of [s] out of [t] is the double of a
    nearest number of hundredths, among the three candidates around the exact
    quotient. *)
Definition rate_checked (s t : Z) : bool :=
  let c := round_half_even (10000 * s) t in
  existsb
    (λ k, bool_decide (Prim2SF (rate_in_code_order s t)
                       = Prim2SF (Z2f k / Z2f 100)%float)
          && bool_decide (nearest_hundredths s t k))
    [c - 1; c; c + 1].

(** The statement "in every result of the reconciliation of this batch, the
    processing rate is [formula |E ∩ P| |E|]". *)
Definition rate_is (formula : Z → Z → float) (db : Session) (batch_id : Z)
  : Prop :=
  ∀ r, RecordService.find_missing_records batch_id db = (Returns r, db) →
       processing_rate r
       = formula (set_len (id_set db batch_id EXPECTED
                           ∩ id_set db batch_id PROCESSED))
                 (set_len (id_set db batch_id EXPECTED)).

(** The statement "the status view of this batch lists the two identifier
    sets, ascending, with their cardinalities". *)
Definition status_lists_sets (db : Session) (batch_id : Z) : Prop :=
  ∀ r, RecordService.get_processing_status batch_id db = (Returns r, db) →
       expected_records r = sorted (elements (id_set db batch_id EXPECTED))
       ∧ processed_records r = sorted (elements (id_set db batch_id PROCESSED))
       ∧ expected_count r = set_len (id_set db batch_id EXPECTED)
       ∧ processed_count r = set_len (id_set db batch_id PROCESSED).

(** ** Stores used as examples *)

Definition expected_row (key record_id batch_id : Z) : Rec.t :=
  Rec.mk key record_id batch_id EXPECTED None.

Definition processed_row (key record_id batch_id : Z) : Rec.t :=
  Rec.mk key record_id batch_id PROCESSED None.

Definition orders_batch : Batch.t :=
  Batch.mk 1 "test_batch_orders" ORDER (Some "Test batch for order processing").

(** The fixture of [tests/conftest.py]: five expected, three processed. *)
Definition db_orders : Session :=
  {| batches := [orders_batch];
     records := [expected_row 1 1001 1; expected_row 2 1002 1;
                 expected_row 3 1003 1; expected_row 4 1004 1;
                 expected_row 5 1005 1;
                 processed_row 6 1001 1; processed_row 7 1003 1;
                 processed_row 8 1005 1];
     next_batch_id := 2;
     next_record_id := 9 |}.

(** Identifier 7 registered twice as expected, identifier 9 twice as
    processed. *)
Definition db_duplicates : Session :=
  {| batches := [orders_batch];
     records := [expected_row 1 7 1; expected_row 2 7 1;
                 processed_row 3 9 1; processed_row 4 9 1];
     next_batch_id := 2;
     next_record_id := 5 |}.

(** 160 expected identifiers 1..160, of which 1..23 were processed. *)
Definition db_160_23 : Session :=
  {| batches := [orders_batch];
     records :=
       imap (λ i x, expected_row (Z.of_nat i + 1) x 1) (seqZ 1 160)
       ++ imap (λ i x, processed_row (Z.of_nat i + 161) x 1) (seqZ 1 23);
     next_batch_id := 2;
     next_record_id := 184 |}.

Definition sample_batch : BatchCreate :=
  {| bc_batch_name := "test_batch_orders";
     bc_record_type := ORDER;
     bc_description := Some "Test batch for order processing" |}.

(** Checks by computation, for [s] identifiers processed out of [t]
    expected, that the rate is 100 exactly when [s = t] and 0 exactly when
    [s = 0]. *)
Definition rate_extremes_checked (s t : Z) : bool :=
  bool_decide (Prim2SF (rate_in_code_order s t) = Prim2SF 100%float ↔ s = t)
  && bool_decide (Prim2SF (rate_in_code_order s t) = Prim2SF 0%float ↔ s = 0).

(** ** The routes of the router *)

(** One constructor per decorated function of [endpoints.py]: method, path
    and the parameters taken from the path, the query string or the body. *)
Inductive Request :=
| POST_batches (batch : BatchCreate)
| GET_batches
| GET_batches_id (batch_id : Z)
| DELETE_batches_id (batch_id : Z)
| POST_records (batch_id : Z) (record : RecordCreate)
| POST_records_bulk (bulk_data : RecordBulkUpload)
| GET_records_batch (batch_id : Z)
| GET_records_batch_status (batch_id : Z) (status : RecordStatus)
| GET_analysis_missing (batch_id : Z)
| GET_analysis_status (batch_id : Z)
| GET_analysis_statistics (batch_id : Z)
| DELETE_records_batch (batch_id : Z).

Definition is_GET (req : Request) : bool :=
  match req with
  | GET_batches | GET_batches_id _ | GET_records_batch _
  | GET_records_batch_status _ _ | GET_analysis_missing _
  | GET_analysis_status _ | GET_analysis_statistics _ => true
  | _ => false
  end.

(** The status line of a response. *)
Definition status_of {A} (resp : Response A) : Z :=
  match resp with
  | Success status_code _ => status_code
  | HTTPException status_code _ => status_code
  end.

(** The router: the request goes to its endpoint; what is kept here of the
    answer is its status code, beside the store the endpoint leaves. *)
Definition serve (req : Request) (db : Session) : Z * Session :=
  let answer {A} (out : Response A * Session) := (status_of (fst out), snd out) in
  match req with
  | POST_batches batch => answer (Endpoints.create_batch batch db)
  | GET_batches => answer (Endpoints.get_all_batches db)
  | GET_batches_id batch_id => answer (Endpoints.get_batch batch_id db)
  | DELETE_batches_id batch_id => answer (Endpoints.delete_batch batch_id db)
  | POST_records batch_id record =>
      answer (Endpoints.create_record batch_id record db)
  | POST_records_bulk bulk_data =>
      answer (Endpoints.bulk_upload_records bulk_data db)
  | GET_records_batch batch_id =>
      answer (Endpoints.get_records_by_batch batch_id db)
  | GET_records_batch_status batch_id status =>
      answer (Endpoints.get_records_by_status batch_id status db)
  | GET_analysis_missing batch_id =>
      answer (Endpoints.analyze_missing_records batch_id db)
  | GET_analysis_status batch_id =>
      answer (Endpoints.get_processing_status batch_id db)
  | GET_analysis_statistics batch_id =>
      answer (Endpoints.get_batch_statistics batch_id db)
  | DELETE_records_batch batch_id =>
      answer (Endpoints.clear_batch_records batch_id db)
  end.

(** The store after a sequence of requests, served one after the other. *)
Definition run (reqs : list Request) (db : Session) : Session :=
  foldl (λ db req, snd (serve req db)) db reqs.

(** The store after [Base.metadata.create_all]: two empty tables. *)
Definition empty_db : Session :=
  {| batches := []; records := []; next_batch_id := 1; next_record_id := 1 |}.

(** The constraints of the schema of [models.py] on a store: primary keys
    and batch names are unique, keys were drawn from the sequences, and the
    foreign key of every record names a stored batch. *)
Record well_formed (db : Session) : Prop := {
  wf_batch_keys : NoDup (batch_ids db);
  wf_batch_names : NoDup (batch_names db);
  wf_record_keys : NoDup (Rec.id <$> records db);
  wf_batch_seq : ∀ k, k ∈ batch_ids db → k < next_batch_id db;
  wf_record_seq : ∀ k, k ∈ Rec.id <$> records db → k < next_record_id db;
  wf_foreign_key : ∀ r, r ∈ records db → Rec.batch_id r ∈ batch_ids db
}.

(** The rows of batch [batch_id], in storage order. *)
Definition rows_of (db : Session) (batch_id : Z) : list Rec.t :=
  filter (λ r, Rec.batch_id r = batch_id) (records db).

(** ** data/seed_data.py *)

(** [db.query(Batch).delete()]: a bulk delete, which does not go through the
    relationship and its cascade. [db.commit()] follows in the caller. *)
Definition delete_batches (P : Batch.t → Prop) `{!∀ b, Decision (P b)} : M Z :=
  λ db,
    (Returns (len (filter P (batches db))),
     {| batches := filter (λ b, ¬ P b) (batches db);
        records := records db;
        next_batch_id := next_batch_id db;
        next_record_id := next_record_id db |}).

Module SeedData.

(** The content of [sample_orders.json] once parsed: the batch and the two
    lists of records, each record with its own ['status'] entry. *)
Record SampleData := {
  batch : BatchCreate;
  sd_expected_records : list RecordCreate;
  sd_processed_records : list RecordCreate
}.

(** What the summary prints from the sets: the number of orders processed
    successfully, the number of missing orders and their sorted ids. *)
Record Summary := {
  successfully_processed : Z;
  missing : Z;
  missing_order_ids : list Z
}.

(** Returns the two counts it prints. *)
Definition clear_existing_data : M (Z * Z) :=
  record_count ← delete_commit_records (λ _, True);
  batch_count ← delete_batches (λ _, True);
  mret (batch_count, record_count).

(** [load_sample_data(db, clear_first)], for the parsed file [data]. Returns
    [batch.id]; the summary is what the function prints from its two sets
    (the line with the rate, a formatted float, is left out). *)
Definition load_sample_data (data : SampleData) (clear_first : bool)
  : M (Z * Summary) :=
  _ ← (if clear_first then clear_existing_data else mret (0, 0));
  batch ← add_commit_batch (bc_batch_name (batch data))
                           (bc_record_type (batch data))
                           (bc_description (batch data));
  expected_records ←
    add_all_commit_records (Batch.id batch) (sd_expected_records data);
  processed_records ←
    add_all_commit_records (Batch.id batch) (sd_processed_records data);
  let expected_ids : gset Z := list_to_set (Rec.record_id <$> expected_records) in
  let processed_ids : gset Z := list_to_set (Rec.record_id <$> processed_records) in
  let missing_ids := expected_ids ∖ processed_ids in
  let successfully_processed := expected_ids ∩ processed_ids in
  mret (Batch.id batch,
        {| successfully_processed := set_len successfully_processed;
           missing := set_len missing_ids;
           missing_order_ids := sorted (elements missing_ids) |}).

End SeedData.

(** A second batch and a store with rows of both. *)
Definition files_batch : Batch.t := Batch.mk 2 "nightly_files" FILE None.

Definition db_two_batches : Session :=
  {| batches := [orders_batch; files_batch];
     records := [expected_row 1 1001 1; expected_row 2 500 2;
                 processed_row 3 1001 1; expected_row 4 1002 1;
                 processed_row 5 77 2];
     next_batch_id := 3;
     next_record_id := 6 |}.

Definition files_request : BatchCreate :=
  {| bc_batch_name := "nightly_files";
     bc_record_type := FILE;
     bc_description := None |}.

Definition sample_orders : SeedData.SampleData :=
  {| SeedData.batch := sample_batch;
     SeedData.sd_expected_records :=
       [{| rc_record_id := 1001; rc_status := EXPECTED; rc_record_metadata := None |};
        {| rc_record_id := 1002; rc_status := EXPECTED; rc_record_metadata := None |};
        {| rc_record_id := 1003; rc_status := EXPECTED; rc_record_metadata := None |}];
     SeedData.sd_processed_records :=
       [{| rc_record_id := 1001; rc_status := PROCESSED; rc_record_metadata := None |};
        {| rc_record_id := 1003; rc_status := PROCESSED; rc_record_metadata := None |}] |}.

(** * Properties *)

(** ** [sorted] *)

Section sorted_facts.

Lemma sorted_Permutation (l : list Z) : sorted l ≡ₚ l.
Proof. apply merge_sort_Permutation. Qed.

Lemma sorted_StronglySorted (l : list Z) : StronglySorted Z.le (sorted l).
Proof. apply (StronglySorted_merge_sort Z.le). Qed.

Lemma elem_of_sorted (x : Z) (l : list Z) : x ∈ sorted l ↔ x ∈ l.
Proof. by rewrite sorted_Permutation. Qed.

Lemma len_sorted (l : list Z) : len (sorted l) = len l.
Proof. unfold len. by rewrite sorted_Permutation. Qed.

(** An ascending list without repetition ascends strictly. *)
Lemma StronglySorted_le_NoDup (l : list Z) :
  StronglySorted Z.le l → NoDup l → StronglySorted Z.lt l.
Proof.
  induction 1 as [|a l Hl IH Ha]; intros Hnd; [constructor|].
  apply NoDup_cons in Hnd as [Hnotin Hnd].
  constructor; [by apply IH|].
  rewrite Forall_forall in Ha |- *. intros y Hy.
  specialize (Ha y Hy).
  assert (a ≠ y) by (intros ->; contradiction).
  lia.
Qed.

(** A strictly ascending list is determined by its members. *)
Lemma StronglySorted_lt_unique (l1 l2 : list Z) :
  StronglySorted Z.lt l1 → StronglySorted Z.lt l2 →
  (∀ x, x ∈ l1 ↔ x ∈ l2) → l1 = l2.
Proof.
  intros H1 H2 Hmem.
  assert (Hle : ∀ l, StronglySorted Z.lt l → StronglySorted Z.le l).
  { induction 1 as [|a l Hl IH Ha]; constructor; [done|].
    eapply Forall_impl; [exact Ha|]. intros; simpl in *; lia. }
  assert (Hnd : ∀ l, StronglySorted Z.lt l → NoDup l).
  { induction 1 as [|a l Hl IH Ha]; constructor; [|done].
    rewrite Forall_forall in Ha. intros Hin. specialize (Ha a Hin). lia. }
  apply (StronglySorted_unique Z.le); [by apply Hle|by apply Hle|].
  apply NoDup_Permutation; auto.
Qed.

Lemma sorted_elements_strict (X : gset Z) :
  StronglySorted Z.lt (sorted (elements X)).
Proof.
  apply StronglySorted_le_NoDup; [apply sorted_StronglySorted|].
  rewrite sorted_Permutation. apply NoDup_elements.
Qed.

Lemma elem_of_sorted_elements (x : Z) (X : gset Z) :
  x ∈ sorted (elements X) ↔ x ∈ X.
Proof. by rewrite elem_of_sorted, elem_of_elements. Qed.

Lemma len_sorted_elements (X : gset Z) : len (sorted (elements X)) = set_len X.
Proof. rewrite len_sorted. reflexivity. Qed.

End sorted_facts.

(** ** Looking a batch up *)

Section lookup_facts.

Lemma first_batch_found (db : Session) (batch_id : Z) :
  batch_id ∈ batch_ids db →
  ∃ b, head (filter (λ b, Batch.id b = batch_id) (batches db)) = Some b
       ∧ b ∈ batches db ∧ Batch.id b = batch_id.
Proof.
  unfold batch_ids. intros (b & Hid & Hb)%list_elem_of_fmap.
  destruct (filter (λ b, Batch.id b = batch_id) (batches db)) as [|b' l] eqn:E.
  - assert (b ∈ filter (λ b, Batch.id b = batch_id) (batches db)) as Hin
      by (apply list_elem_of_filter; auto).
    rewrite E in Hin. by apply elem_of_nil in Hin.
  - exists b'. split; [done|].
    assert (b' ∈ filter (λ b, Batch.id b = batch_id) (batches db)) as Hin
      by (rewrite E; left).
    apply list_elem_of_filter in Hin. tauto.
Qed.

Lemma first_batch_missing (db : Session) (batch_id : Z) :
  batch_id ∉ batch_ids db →
  head (filter (λ b, Batch.id b = batch_id) (batches db)) = None.
Proof.
  unfold batch_ids. intros Hnot.
  destruct (filter (λ b, Batch.id b = batch_id) (batches db)) as [|b' l] eqn:E;
    [done|].
  assert (b' ∈ filter (λ b, Batch.id b = batch_id) (batches db)) as Hin
    by (rewrite E; left).
  apply list_elem_of_filter in Hin as [Hid Hin].
  exfalso. apply Hnot. apply list_elem_of_fmap. eauto.
Qed.

Lemma get_batch_by_id_found (db : Session) (batch_id : Z) :
  batch_id ∈ batch_ids db →
  ∃ b, BatchService.get_batch_by_id batch_id db = (Returns (Some b), db)
       ∧ b ∈ batches db ∧ Batch.id b = batch_id.
Proof.
  intros (b & Hb & Hin & Hid)%first_batch_found. exists b.
  unfold BatchService.get_batch_by_id, query_batch_first. by rewrite Hb.
Qed.

Lemma get_batch_by_id_missing (db : Session) (batch_id : Z) :
  batch_id ∉ batch_ids db →
  BatchService.get_batch_by_id batch_id db = (Returns None, db).
Proof.
  intros Hb%first_batch_missing.
  unfold BatchService.get_batch_by_id, query_batch_first. by rewrite Hb.
Qed.

End lookup_facts.

(** ** The identifier sets *)

Section id_set_facts.

Lemma elem_of_id_column (db : Session) (batch_id : Z) (st : RecordStatus)
    (x : Z) :
  x ∈ id_column db batch_id st ↔ has_id db batch_id st x.
Proof.
  unfold id_column, rows_with, has_id. rewrite list_elem_of_fmap. split.
  - intros (r & -> & [[Hb Hs] Hin]%list_elem_of_filter). eauto.
  - intros (r & Hin & Hb & Hs & Hx). exists r. split; [done|].
    apply list_elem_of_filter. auto.
Qed.

Lemma elem_of_id_set (db : Session) (batch_id : Z) (st : RecordStatus) (x : Z) :
  x ∈ id_set db batch_id st ↔ has_id db batch_id st x.
Proof. unfold id_set. by rewrite elem_of_list_to_set, elem_of_id_column. Qed.

(** A set has as many members as any list that enumerates it. *)
Lemma set_len_enumerates (X : gset Z) (l : list Z) (P : Z → Prop) :
  enumerates l P → (∀ x, x ∈ X ↔ P x) → set_len X = len l.
Proof.
  intros [Hnd Hl] HX. unfold set_len, len, size, set_size. simpl.
  f_equal. apply Permutation_length.
  apply NoDup_Permutation; [apply NoDup_elements|done|].
  intros x. by rewrite elem_of_elements, HX, Hl.
Qed.

Lemma elements_enumerates (X : gset Z) (P : Z → Prop) :
  (∀ x, x ∈ X ↔ P x) → enumerates (elements X) P.
Proof.
  intros HX. split; [apply NoDup_elements|].
  intros x. by rewrite elem_of_elements.
Qed.

(** A set built from a list is no larger than the list, and as large exactly
    when the list has no repetition. *)
Lemma size_list_to_set_cons (x : Z) (l : list Z) :
  size (list_to_set (x :: l) : gset Z)
  = if decide (x ∈ l) then size (list_to_set l : gset Z)
    else S (size (list_to_set l : gset Z)).
Proof.
  simpl. destruct (decide (x ∈ l)) as [Hin|Hnotin].
  - f_equal. apply leibniz_equiv. intros y.
    rewrite elem_of_union, elem_of_singleton, elem_of_list_to_set.
    split; [by intros [->|?]|by right].
  - rewrite size_union; [by rewrite size_singleton|]. set_solver.
Qed.

Lemma size_list_to_set_le (l : list Z) :
  (size (list_to_set l : gset Z) ≤ length l)%nat.
Proof.
  induction l as [|x l IH]; [done|].
  rewrite size_list_to_set_cons. simpl. case_decide; lia.
Qed.

Lemma size_list_to_set_NoDup (l : list Z) :
  size (list_to_set l : gset Z) = length l ↔ NoDup l.
Proof.
  split; [|apply size_list_to_set].
  induction l as [|x l IH]; [constructor|].
  rewrite size_list_to_set_cons. simpl. pose proof (size_list_to_set_le l).
  case_decide; [lia|]. intros [=Hsz]. constructor; auto.
Qed.

End id_set_facts.

(** ** What the three analysis services compute *)

Section services_unfolded.

Variables (db : Session) (batch_id : Z).

Let E : gset Z := id_set db batch_id EXPECTED.
Let P : gset Z := id_set db batch_id PROCESSED.

Lemma find_missing_records_found (b : Batch.t) :
  head (filter (λ b, Batch.id b = batch_id) (batches db)) = Some b →
  RecordService.find_missing_records batch_id db
  = (Returns
       {| mr_batch_id := batch_id;
          mr_batch_name := Batch.batch_name b;
          total_expected := set_len E;
          total_processed := set_len P;
          missing_count := set_len (E ∖ P);
          missing_records := sorted (elements (E ∖ P));
          processing_rate := rate_in_code_order (set_len (E ∩ P)) (set_len E);
          unexpected_count := set_len (P ∖ E);
          unexpected_records := sorted (elements (P ∖ E)) |},
     db).
Proof.
  intros Hb.
  unfold RecordService.find_missing_records, mbind, M_bind, query_batch_first.
  rewrite Hb. unfold query_record_all, mret, M_ret, rate_in_code_order.
  do 2 f_equal. fold (rows_with db batch_id EXPECTED).
  fold (rows_with db batch_id PROCESSED).
  fold (id_column db batch_id EXPECTED). fold (id_column db batch_id PROCESSED).
  fold (id_set db batch_id EXPECTED). fold (id_set db batch_id PROCESSED).
  fold E P. f_equal. by case_decide.
Qed.

Lemma find_missing_records_missing :
  head (filter (λ b, Batch.id b = batch_id) (batches db)) = None →
  RecordService.find_missing_records batch_id db
  = (Raises (ValueError (not_found_msg batch_id)), db).
Proof.
  intros Hb.
  unfold RecordService.find_missing_records, mbind, M_bind, query_batch_first.
  by rewrite Hb.
Qed.

Lemma get_processing_status_found (b : Batch.t) :
  head (filter (λ b, Batch.id b = batch_id) (batches db)) = Some b →
  RecordService.get_processing_status batch_id db
  = (Returns
       {| ps_batch_id := batch_id;
          ps_batch_name := Batch.batch_name b;
          ps_record_type := Batch.record_type b;
          expected_records := sorted (id_column db batch_id EXPECTED);
          processed_records := sorted (id_column db batch_id PROCESSED);
          expected_count := len (id_column db batch_id EXPECTED);
          processed_count := len (id_column db batch_id PROCESSED) |},
     db).
Proof.
  intros Hb.
  unfold RecordService.get_processing_status, mbind, M_bind, query_batch_first.
  by rewrite Hb.
Qed.

Lemma get_processing_status_missing :
  head (filter (λ b, Batch.id b = batch_id) (batches db)) = None →
  RecordService.get_processing_status batch_id db
  = (Raises (ValueError (not_found_msg batch_id)), db).
Proof.
  intros Hb.
  unfold RecordService.get_processing_status, mbind, M_bind, query_batch_first.
  by rewrite Hb.
Qed.

Lemma get_batch_statistics_found (b : Batch.t) :
  head (filter (λ b, Batch.id b = batch_id) (batches db)) = Some b →
  RecordService.get_batch_statistics batch_id db
  = (Returns
       {| st_batch_id := batch_id;
          st_batch_name := Batch.batch_name b;
          total_records :=
            len (filter (λ r, Rec.batch_id r = batch_id) (records db));
          st_expected_count := len (rows_with db batch_id EXPECTED);
          st_processed_count := len (rows_with db batch_id PROCESSED);
          st_missing_count := set_len (E ∖ P);
          st_processing_rate :=
            rate_in_code_order (set_len (E ∩ P)) (set_len E) |},
     db).
Proof.
  intros Hb.
  unfold RecordService.get_batch_statistics, mbind, M_bind, query_batch_first.
  rewrite Hb.
  unfold query_record_all, query_record_count, mret, M_ret, rate_in_code_order.
  do 2 f_equal. fold (rows_with db batch_id EXPECTED).
  fold (rows_with db batch_id PROCESSED).
  fold (id_column db batch_id EXPECTED). fold (id_column db batch_id PROCESSED).
  fold (id_set db batch_id EXPECTED). fold (id_set db batch_id PROCESSED).
  fold E P. f_equal. by case_decide.
Qed.

Lemma get_batch_statistics_missing :
  head (filter (λ b, Batch.id b = batch_id) (batches db)) = None →
  RecordService.get_batch_statistics batch_id db
  = (Raises (ValueError (not_found_msg batch_id)), db).
Proof.
  intros Hb.
  unfold RecordService.get_batch_statistics, mbind, M_bind, query_batch_first.
  by rewrite Hb.
Qed.

End services_unfolded.

(** ** Reconciliation: the two set differences *)

(** The rows are read through two filters, so any rearrangement of table
    [records] yields the same identifier sets. *)
Lemma id_set_Permutation (db db' : Session) (batch_id : Z) (st : RecordStatus) :
  records db' ≡ₚ records db → id_set db' batch_id st = id_set db batch_id st.
Proof.
  intros Hp. unfold id_set, id_column, rows_with. by rewrite Hp.
Qed.

(** C1. For every existing batch, [find_missing_records] returns as
    [missing_records] the strictly ascending list of exactly the identifiers
    that some EXPECTED row of the batch carries and no PROCESSED row of the
    batch carries, and as [unexpected_records] the strictly ascending list of
    exactly the identifiers carried by a PROCESSED row and by no EXPECTED row;
    storing the same rows in any other order gives the same two lists. *)
Theorem find_missing_records_set_difference (db : Session) (batch_id : Z) :
  batch_id ∈ batch_ids db →
  ∃ r, RecordService.find_missing_records batch_id db = (Returns r, db)
    ∧ StronglySorted Z.lt (missing_records r)
    ∧ (∀ x, x ∈ missing_records r ↔
            has_id db batch_id EXPECTED x ∧ ¬ has_id db batch_id PROCESSED x)
    ∧ StronglySorted Z.lt (unexpected_records r)
    ∧ (∀ x, x ∈ unexpected_records r ↔
            has_id db batch_id PROCESSED x ∧ ¬ has_id db batch_id EXPECTED x)
    ∧ (∀ db', batches db' = batches db → records db' ≡ₚ records db →
         ∃ r', RecordService.find_missing_records batch_id db' = (Returns r', db')
           ∧ missing_records r' = missing_records r
           ∧ unexpected_records r' = unexpected_records r).
Proof.
  intros (b & Hb & _ & _)%first_batch_found.
  eexists. split; [by apply find_missing_records_found|]. simpl.
  split; [apply sorted_elements_strict|].
  split.
  { intros x.
    by rewrite elem_of_sorted_elements, elem_of_difference, !elem_of_id_set. }
  split; [apply sorted_elements_strict|].
  split.
  { intros x.
    by rewrite elem_of_sorted_elements, elem_of_difference, !elem_of_id_set. }
  intros db' Hbatches Hperm.
  eexists. split.
  { apply find_missing_records_found with (b := b). by rewrite Hbatches. }
  simpl. by rewrite !(id_set_Permutation db db').
Qed.

Lemma find_missing_records_set_difference_witness :
  ∃ r, RecordService.find_missing_records 1 db_orders = (Returns r, db_orders)
    ∧ missing_records r = [1002; 1004] ∧ unexpected_records r = [].
Proof.
  destruct (find_missing_records_set_difference db_orders 1)
    as (r & Hr & _); [by left|].
  exists r. split; [exact Hr|].
  vm_compute in Hr. by injection Hr as <-.
Defined.

(** ** Reconciliation: the processing rate *)

(** Two doubles with different bit patterns are different. *)
Lemma float_neq (x y : float) : Prim2SF x ≠ Prim2SF y → x ≠ y.
Proof. intros Hne ->. by apply Hne. Qed.

(** The scenarios of the test suite: 3 of 5, 2 of 2, 0 of 2, none expected. *)
Example rate_3_of_5 : rate_in_code_order 3 5 = 60%float.
Proof. reflexivity. Qed.

Example rate_2_of_2 : rate_in_code_order 2 2 = 100%float.
Proof. reflexivity. Qed.

Example rate_0_of_2 : rate_in_code_order 0 2 = 0%float.
Proof. reflexivity. Qed.

Example rate_0_of_0 : rate_in_code_order 0 0 = 0%float.
Proof. reflexivity. Qed.

(** 23 of 160 is 14.375 per cent. The quotient [23 / 160] is not a binary
    fraction; its double, times 100, is the double just below 14.375
    (14.374999999999998), which [round(_, 2)] takes to 14.37. *)
Example rate_23_of_160 :
  rate_in_code_order 23 160 = (Z2f 1437 / Z2f 100)%float
  ∧ (Z2f 23 / Z2f 160 * Z2f 100)%float = 0x1.cbfffffffffffp+3%float.
Proof. split; reflexivity. Qed.

(** 49 of 160 is 30.625 per cent, a halfway case again; here the double
    product is just above it and the rate returned is 30.63. So the halfway
    cases go down for 23 of 160 and up for 49 of 160: no rule for halves
    applied to the exact percentage gives both. *)
Example rate_49_of_160 :
  rate_in_code_order 49 160 = (Z2f 3063 / Z2f 100)%float
  ∧ (Z2f 49 / Z2f 160 * Z2f 100)%float = 0x1.ea00000000001p+4%float
  ∧ 2 * (10000 * 23) = (2 * 1437 + 1) * 160
  ∧ 2 * (10000 * 49) = (2 * 3062 + 1) * 160.
Proof. repeat split; reflexivity. Qed.

Lemma forallb_seqZ_elim (f : Z → bool) (m n k : Z) :
  forallb f (seqZ m n) = true → m ≤ k < m + n → f k = true.
Proof.
  intros Hall Hk. apply Is_true_true_1. apply Is_true_true_2 in Hall.
  apply forallb_True in Hall. rewrite Forall_forall in Hall.
  apply Hall, elem_of_seqZ. lia.
Qed.

(** Up to 200 expected identifiers the returned rate is always the double of
    a two-digit decimal nearest to the exact percentage; only the side taken
    at a halfway case varies. *)
Lemma rate_nearest_hundredth_small (s t : Z) :
  0 ≤ s ≤ t → 0 < t ≤ 200 →
  ∃ k, rate_in_code_order s t = (Z2f k / Z2f 100)%float
       ∧ nearest_hundredths s t k.
Proof.
  intros Hs Ht.
  assert (forallb (λ t, forallb (λ s, rate_checked s t) (seqZ 0 (t + 1)))
                  (seqZ 1 200) = true) as Hall
    by (vm_cast_no_check (eq_refl true)).
  pose proof (forallb_seqZ_elim _ 1 200 t Hall ltac:(lia)) as Hrow.
  simpl in Hrow.
  pose proof (forallb_seqZ_elim _ 0 (t + 1) s Hrow ltac:(lia)) as Hst.
  simpl in Hst. unfold rate_checked in Hst.
  apply existsb_exists in Hst as (k & _ & Hk).
  apply andb_true_iff in Hk as [Heq Hnear].
  exists k. split.
  - apply Prim2SF_inj. by apply bool_decide_eq_true in Heq.
  - by apply bool_decide_eq_true in Hnear.
Qed.

(** C2, as worded, fails: with 160 expected identifiers of which 23 are
    processed the reconciliation returns 14.37, while 100 × 23 / 160 = 14.375
    rounded to two decimal places is 14.38, with halves to even, with halves
    upwards, and also when [round(100 × 23 / 160, 2)] is evaluated in binary64
    in the order written. *)
Lemma processing_rate_not_decimal_rounding :
  ¬ rate_is (decimal_rate round_half_even) db_160_23 1
  ∧ ¬ rate_is (decimal_rate round_half_up) db_160_23 1
  ∧ ¬ rate_is rate_in_contract_order db_160_23 1.
Proof.
  assert (∃ r, RecordService.find_missing_records 1 db_160_23
               = (Returns r, db_160_23)
               ∧ processing_rate r = (Z2f 1437 / Z2f 100)%float
               ∧ set_len (id_set db_160_23 1 EXPECTED
                          ∩ id_set db_160_23 1 PROCESSED) = 23
               ∧ set_len (id_set db_160_23 1 EXPECTED) = 160)
    as (r & Hr & Hrate & Hs & Ht).
  { eexists. split; [by vm_compute|]. by vm_compute. }
  repeat split; intros Hrate_is; specialize (Hrate_is r Hr);
    rewrite Hrate, Hs, Ht in Hrate_is; revert Hrate_is;
    apply float_neq; by vm_compute.
Qed.

(** C2, amended. For every existing batch, the processing rate returned by
    [find_missing_records] is [round(x, 2)] of the double
    [x = (|E ∩ P| / |E|) × 100], quotient first and product second, each
    rounded to binary64, when the set E of expected identifiers is not
    empty, and is exactly 0.0 when E is empty. *)
Theorem processing_rate_in_code_order (db : Session) (batch_id : Z) :
  batch_id ∈ batch_ids db →
  ∃ r, RecordService.find_missing_records batch_id db = (Returns r, db)
    ∧ let E := id_set db batch_id EXPECTED in
      let P := id_set db batch_id PROCESSED in
      (set_len E > 0 →
         processing_rate r
         = round2 (Z2f (set_len (E ∩ P)) / Z2f (set_len E) * Z2f 100)%float)
      ∧ (set_len E = 0 → processing_rate r = 0%float)
      ∧ ((∀ x, ¬ has_id db batch_id EXPECTED x) → processing_rate r = 0%float).
Proof.
  intros (b & Hb & _ & _)%first_batch_found.
  eexists. split; [by apply find_missing_records_found|]. simpl.
  unfold rate_in_code_order.
  split; [intros Hpos; by rewrite decide_True|].
  assert (set_len (id_set db batch_id EXPECTED) = 0 →
          (if decide (set_len (id_set db batch_id EXPECTED) > 0)
           then round2 (Z2f (set_len (id_set db batch_id EXPECTED
                                      ∩ id_set db batch_id PROCESSED))
                        / Z2f (set_len (id_set db batch_id EXPECTED))
                        * Z2f 100)%float
           else 0%float) = 0%float) as Hzero.
  { intros Hz. rewrite decide_False; [done|lia]. }
  split; [exact Hzero|].
  intros Hnone. apply Hzero. unfold set_len.
  replace (id_set db batch_id EXPECTED) with (∅ : gset Z); [done|].
  apply leibniz_equiv. intros x. rewrite elem_of_id_set, elem_of_empty.
  split; [done|apply Hnone].
Qed.

Lemma processing_rate_in_code_order_witness :
  ∃ r, RecordService.find_missing_records 1 db_orders = (Returns r, db_orders)
    ∧ processing_rate r = 60%float.
Proof.
  destruct (processing_rate_in_code_order db_orders 1)
    as (r & Hr & _); [by left|].
  exists r. split; [exact Hr|].
  vm_compute in Hr. by injection Hr as <-.
Defined.

(** ** Unknown batch: not found, whatever the rows *)

(** What an analysis endpoint answers when its service raises. *)
Lemma try_except_raises {A} (status_code : Z) (body : M A)
    (handler : exn → Z * string) (db db' : Session) (e : exn) :
  body db = (Raises e, db') →
  try_except status_code body handler db
  = (HTTPException (fst (handler e)) (snd (handler e)), db').
Proof. intros Hbody. unfold try_except. by rewrite Hbody. Qed.

(** C3. For every identifier that no stored batch has, each of the three
    analysis services raises the not-found [ValueError] and returns no result,
    the store being as it was; the hypothesis and the outcome mention table
    [batches] only, so the failure is decided before any row of [records] is
    read ([with_records db rows] fails alike for all [rows]). Each analysis
    endpoint turns it into status 404 with the message as detail, whereas
    any exception that is not a [ValueError] becomes status 500 with the
    endpoint's own prefix. *)
Theorem analysis_of_unknown_batch_not_found (db : Session) (batch_id : Z) :
  batch_id ∉ batch_ids db →
  (∀ rows,
     let db' := with_records db rows in
     RecordService.find_missing_records batch_id db'
     = (Raises (ValueError (not_found_msg batch_id)), db')
     ∧ RecordService.get_processing_status batch_id db'
       = (Raises (ValueError (not_found_msg batch_id)), db')
     ∧ RecordService.get_batch_statistics batch_id db'
       = (Raises (ValueError (not_found_msg batch_id)), db'))
  ∧ Endpoints.analyze_missing_records batch_id db
    = (HTTPException HTTP_404_NOT_FOUND (not_found_msg batch_id), db)
  ∧ Endpoints.get_processing_status batch_id db
    = (HTTPException HTTP_404_NOT_FOUND (not_found_msg batch_id), db)
  ∧ Endpoints.get_batch_statistics batch_id db
    = (HTTPException HTTP_404_NOT_FOUND (not_found_msg batch_id), db)
  ∧ (∀ failed e, (∀ msg, e ≠ ValueError msg) →
       analysis_except failed e
       = (HTTP_500_INTERNAL_SERVER_ERROR, failed +:+ str e))
  ∧ HTTP_404_NOT_FOUND ≠ HTTP_500_INTERNAL_SERVER_ERROR.
Proof.
  intros Hnot.
  assert (∀ rows,
            head (filter (λ b, Batch.id b = batch_id)
                         (batches (with_records db rows))) = None) as Hrows.
  { intros rows. by apply first_batch_missing. }
  pose proof (first_batch_missing db batch_id Hnot) as Hb.
  split.
  { intros rows db'. subst db'. specialize (Hrows rows).
    split; [by apply find_missing_records_missing|].
    split; [by apply get_processing_status_missing|].
    by apply get_batch_statistics_missing. }
  unfold Endpoints.analyze_missing_records, Endpoints.get_processing_status,
    Endpoints.get_batch_statistics.
  rewrite (try_except_raises _ _ _ db db _
             (find_missing_records_missing db batch_id Hb)).
  rewrite (try_except_raises _ _ _ db db _
             (get_processing_status_missing db batch_id Hb)).
  rewrite (try_except_raises _ _ _ db db _
             (get_batch_statistics_missing db batch_id Hb)).
  repeat split; try done.
  intros failed [msg|msg|msg] Hne; [by destruct (Hne msg)|done|done].
Qed.

Lemma analysis_of_unknown_batch_not_found_witness :
  Endpoints.analyze_missing_records 999 db_orders
  = (HTTPException 404 "Batch with id 999 not found", db_orders).
Proof.
  refine (proj1 (proj2 (analysis_of_unknown_batch_not_found db_orders 999 _))).
  apply (bool_decide_unpack _). by vm_compute.
Defined.

(** ** Set semantics: a repeated row changes nothing *)

Lemma has_id_duplicate_row (db db' : Session) (l1 l2 : list Rec.t)
    (r r' : Rec.t) (batch_id : Z) (st : RecordStatus) (x : Z) :
  records db = l1 ++ l2 → r ∈ records db →
  Rec.record_id r' = Rec.record_id r → Rec.batch_id r' = Rec.batch_id r →
  Rec.status r' = Rec.status r →
  records db' = l1 ++ r' :: l2 →
  has_id db' batch_id st x ↔ has_id db batch_id st x.
Proof.
  intros Hdb Hr Hid Hbatch Hst Hdb'. unfold has_id. rewrite Hdb'. split.
  - intros (y & Hy & Hyb & Hys & Hyx).
    apply elem_of_app in Hy as [Hy|Hy%elem_of_cons].
    + exists y. rewrite Hdb, elem_of_app. auto.
    + destruct Hy as [->|Hy].
      * exists r. repeat split; congruence.
      * exists y. rewrite Hdb, elem_of_app. auto.
  - intros (y & Hy & Hyb & Hys & Hyx). exists y.
    rewrite Hdb in Hy. apply elem_of_app in Hy as [Hy|Hy];
      rewrite elem_of_app, elem_of_cons; auto.
Qed.

(** C4. Adding to the table, at any position, a row that repeats the domain
    identifier, the batch and the status of a row already stored changes
    nothing in what [find_missing_records] returns for any batch identifier:
    the two sorted lists, the processing rate and the four counts are the
    same (and so is the not-found failure). *)
Theorem find_missing_records_duplicate_row (db db' : Session)
    (l1 l2 : list Rec.t) (r r' : Rec.t) (batch_id : Z) :
  records db = l1 ++ l2 → r ∈ records db →
  Rec.record_id r' = Rec.record_id r → Rec.batch_id r' = Rec.batch_id r →
  Rec.status r' = Rec.status r →
  batches db' = batches db → records db' = l1 ++ r' :: l2 →
  fst (RecordService.find_missing_records batch_id db')
  = fst (RecordService.find_missing_records batch_id db).
Proof.
  intros Hdb Hr Hid Hbatch Hst Hbatches Hdb'.
  assert (∀ st, id_set db' batch_id st = id_set db batch_id st) as Hsets.
  { intros st. apply leibniz_equiv. intros x. rewrite !elem_of_id_set.
    by eapply has_id_duplicate_row. }
  destruct (head (filter (λ b, Batch.id b = batch_id) (batches db)))
    as [b|] eqn:Hb.
  - rewrite (find_missing_records_found db batch_id b Hb).
    rewrite (find_missing_records_found db' batch_id b)
      by (by rewrite Hbatches).
    simpl. by rewrite !Hsets.
  - rewrite (find_missing_records_missing db batch_id Hb).
    rewrite (find_missing_records_missing db' batch_id)
      by (by rewrite Hbatches).
    done.
Qed.

Lemma find_missing_records_duplicate_row_witness :
  fst (RecordService.find_missing_records 1
         (with_records db_orders
            (take 3 (records db_orders) ++ expected_row 9 1002 1
             :: drop 3 (records db_orders))))
  = fst (RecordService.find_missing_records 1 db_orders).
Proof.
  apply (find_missing_records_duplicate_row db_orders _
           (take 3 (records db_orders)) (drop 3 (records db_orders))
           (expected_row 2 1002 1) (expected_row 9 1002 1) 1);
    try reflexivity.
  apply (bool_decide_unpack _). by vm_compute.
Defined.

(** ** The processing status view *)

(** C5, as worded with the identifier sets of the contract, fails: with
    identifier 7 stored twice as expected the view lists it twice and counts
    two, while the set of expected identifiers has the single member 7. *)
Lemma get_processing_status_keeps_duplicates :
  ∃ r, RecordService.get_processing_status 1 db_duplicates
       = (Returns r, db_duplicates)
    ∧ expected_records r = [7; 7] ∧ expected_count r = 2
    ∧ sorted (elements (id_set db_duplicates 1 EXPECTED)) = [7]
    ∧ set_len (id_set db_duplicates 1 EXPECTED) = 1
    ∧ ¬ status_lists_sets db_duplicates 1.
Proof.
  eexists. split; [by vm_compute|]. simpl.
  repeat split; try by vm_compute.
  intros Hsets. destruct (Hsets _ eq_refl) as (Habs & _).
  vm_compute in Habs. discriminate.
Qed.

(** C5, amended. For every existing batch, the processing status view returns
    the batch's name and record type, and for each status the ascending list
    of the domain identifiers of all rows of the batch with that status, one
    entry per row (a repeated identifier is repeated), together with the
    number of those rows; no identifier is removed for being in the other
    list. *)
Theorem get_processing_status_lists_rows (db : Session) (batch_id : Z) :
  batch_id ∈ batch_ids db →
  ∃ r b, RecordService.get_processing_status batch_id db = (Returns r, db)
    ∧ BatchService.get_batch_by_id batch_id db = (Returns (Some b), db)
    ∧ ps_batch_id r = batch_id
    ∧ ps_batch_name r = Batch.batch_name b
    ∧ ps_record_type r = Batch.record_type b
    ∧ StronglySorted Z.le (expected_records r)
    ∧ expected_records r ≡ₚ id_column db batch_id EXPECTED
    ∧ expected_count r = len (rows_with db batch_id EXPECTED)
    ∧ expected_count r = len (expected_records r)
    ∧ StronglySorted Z.le (processed_records r)
    ∧ processed_records r ≡ₚ id_column db batch_id PROCESSED
    ∧ processed_count r = len (rows_with db batch_id PROCESSED)
    ∧ processed_count r = len (processed_records r).
Proof.
  intros (b & Hb & _ & _)%first_batch_found.
  eexists; exists b. split; [by apply get_processing_status_found|]. simpl.
  split.
  { unfold BatchService.get_batch_by_id, query_batch_first. by rewrite Hb. }
  repeat split;
    first [ apply sorted_StronglySorted | apply sorted_Permutation
          | by rewrite len_sorted
          | unfold id_column, len; by rewrite length_fmap ].
Qed.

Lemma get_processing_status_lists_rows_witness :
  ∃ r, RecordService.get_processing_status 1 db_orders = (Returns r, db_orders)
    ∧ expected_records r = [1001; 1002; 1003; 1004; 1005]
    ∧ processed_records r = [1001; 1003; 1005].
Proof.
  destruct (get_processing_status_lists_rows db_orders 1)
    as (r & b & Hr & _); [by left|].
  exists r. split; [exact Hr|].
  vm_compute in Hr. by injection Hr as <-.
Defined.

(** ** The statistics view: rows counted, identifiers counted *)

(** A status is EXPECTED or PROCESSED: the rows of a batch split in two. *)
Lemma len_rows_by_status (db : Session) (batch_id : Z) :
  len (filter (λ r, Rec.batch_id r = batch_id) (records db))
  = len (rows_with db batch_id EXPECTED) + len (rows_with db batch_id PROCESSED).
Proof.
  unfold rows_with, len. induction (records db) as [|r l IH]; [done|].
  rewrite !filter_cons.
  destruct (decide (Rec.batch_id r = batch_id)) as [Hb|Hb].
  - destruct (Rec.status r) eqn:Hst.
    + rewrite decide_True, decide_False by (intuition congruence).
      simpl. lia.
    + rewrite decide_False, decide_True by (intuition congruence).
      simpl. lia.
  - rewrite !decide_False by (intuition congruence). exact IH.
Qed.

Lemma set_len_id_set_le (db : Session) (batch_id : Z) (st : RecordStatus) :
  set_len (id_set db batch_id st) ≤ len (rows_with db batch_id st).
Proof.
  unfold set_len, id_set, len.
  pose proof (size_list_to_set_le (id_column db batch_id st)) as Hle.
  unfold id_column in Hle at 2. rewrite length_fmap in Hle. lia.
Qed.

Lemma set_len_id_set_NoDup (db : Session) (batch_id : Z) (st : RecordStatus) :
  set_len (id_set db batch_id st) = len (rows_with db batch_id st)
  ↔ NoDup (id_column db batch_id st).
Proof.
  rewrite <- size_list_to_set_NoDup. unfold set_len, id_set, len.
  unfold id_column at 3. rewrite length_fmap. lia.
Qed.

(** C6. For every existing batch, the statistics view returns as
    [total_records] the number of stored rows of the batch, whatever their
    status, and as [missing_count] the number of distinct identifiers that are
    expected and not processed (the length of any list that names each of
    them once, hence of the reconciliation's [missing_records]). The number
    of rows is at least |E| + |P| and equals it exactly when no identifier is
    repeated under one status. *)
Theorem get_batch_statistics_rows_and_sets (db : Session) (batch_id : Z) :
  batch_id ∈ batch_ids db →
  ∃ s r, RecordService.get_batch_statistics batch_id db = (Returns s, db)
    ∧ RecordService.find_missing_records batch_id db = (Returns r, db)
    ∧ total_records s
      = len (filter (λ row, Rec.batch_id row = batch_id) (records db))
    ∧ total_records s = st_expected_count s + st_processed_count s
    ∧ (∀ l, enumerates l (λ x, has_id db batch_id EXPECTED x
                               ∧ ¬ has_id db batch_id PROCESSED x) →
            st_missing_count s = len l)
    ∧ st_missing_count s = len (missing_records r)
    ∧ total_expected r + total_processed r ≤ total_records s
    ∧ (total_records s = total_expected r + total_processed r
       ↔ NoDup (id_column db batch_id EXPECTED)
         ∧ NoDup (id_column db batch_id PROCESSED)).
Proof.
  intros (b & Hb & _ & _)%first_batch_found.
  do 2 eexists. split; [by apply get_batch_statistics_found|].
  split; [by apply find_missing_records_found|]. simpl.
  pose proof (set_len_id_set_le db batch_id EXPECTED) as HleE.
  pose proof (set_len_id_set_le db batch_id PROCESSED) as HleP.
  pose proof (len_rows_by_status db batch_id) as Hsplit.
  split; [done|]. split; [done|].
  split.
  { intros l Hl. eapply set_len_enumerates; [exact Hl|].
    intros x. by rewrite elem_of_difference, !elem_of_id_set. }
  split; [by rewrite len_sorted_elements|].
  split; [lia|].
  rewrite <- !set_len_id_set_NoDup. lia.
Qed.

Lemma get_batch_statistics_rows_and_sets_witness :
  ∃ s r, RecordService.get_batch_statistics 1 db_duplicates
         = (Returns s, db_duplicates)
    ∧ RecordService.find_missing_records 1 db_duplicates
      = (Returns r, db_duplicates)
    ∧ total_records s = 4 ∧ st_missing_count s = 1
    ∧ total_expected r + total_processed r = 2.
Proof.
  destruct (get_batch_statistics_rows_and_sets db_duplicates 1)
    as (s & r & Hs & Hr & _); [by left|].
  exists s, r. split; [exact Hs|]. split; [exact Hr|].
  vm_compute in Hs, Hr. injection Hs as <-. by injection Hr as <-.
Defined.

(** ** Deleting a batch *)

Lemma delete_commit_batch_no_children (db : Session) (b : Batch.t) (r : Rec.t) :
  r ∈ records (snd (delete_commit_batch b db)) → Rec.batch_id r ≠ Batch.id b.
Proof.
  simpl. intros [Hkey Hin]%list_elem_of_filter Hchild. apply Hkey.
  apply list_elem_of_fmap. exists r. split; [done|].
  apply list_elem_of_filter. auto.
Qed.

Lemma delete_commit_batch_gone (db : Session) (b : Batch.t) :
  Batch.id b ∉ batch_ids (snd (delete_commit_batch b db)).
Proof.
  unfold batch_ids. simpl.
  intros (b' & Hid & [Hne _]%list_elem_of_filter)%list_elem_of_fmap.
  by apply Hne.
Qed.

(** C7. Deleting a stored batch through the endpoint succeeds with status 200
    and leaves a store in which no row of [records] belongs to that batch and
    in which fetching the batch answers 404; deleting an identifier that no
    stored batch has answers 404 and leaves the store as it was. *)
Theorem delete_batch_cascades (db : Session) (batch_id : Z) :
  (batch_id ∈ batch_ids db →
   ∃ body db',
     Endpoints.delete_batch batch_id db = (Success HTTP_200_OK body, db')
     ∧ (∀ r, r ∈ records db' → Rec.batch_id r ≠ batch_id)
     ∧ RecordService.get_records_by_batch batch_id db' = (Returns nil, db')
     ∧ (batch_id ∉ batch_ids db')
     ∧ BatchService.get_batch_by_id batch_id db' = (Returns None, db')
     ∧ Endpoints.get_batch batch_id db'
       = (HTTPException HTTP_404_NOT_FOUND (not_found_msg batch_id), db'))
  ∧ (batch_id ∉ batch_ids db →
     Endpoints.delete_batch batch_id db
     = (HTTPException HTTP_404_NOT_FOUND (not_found_msg batch_id), db)).
Proof.
  split.
  - intros (b & Hb & _ & Hid)%first_batch_found.
    unfold Endpoints.delete_batch, BatchService.delete_batch, mbind, M_bind,
      query_batch_first.
    rewrite Hb.
    destruct (delete_commit_batch b db) as [o db'] eqn:Hdel.
    assert (o = Returns () ∧ db' = snd (delete_commit_batch b db))
      as [-> Hdb'] by (rewrite Hdel; split; [by injection Hdel|done]).
    do 2 eexists. split; [reflexivity|].
    assert (∀ r, r ∈ records db' → Rec.batch_id r ≠ batch_id) as Hrows.
    { intros r Hr. rewrite <- Hid. apply (delete_commit_batch_no_children db).
      by rewrite <- Hdb'. }
    assert (batch_id ∉ batch_ids db') as Hgone.
    { rewrite <- Hid, Hdb'. apply delete_commit_batch_gone. }
    split; [exact Hrows|].
    split.
    { unfold RecordService.get_records_by_batch, query_record_all.
      do 2 f_equal.
      destruct (filter (λ r, Rec.batch_id r = batch_id) (records db'))
        as [|r l] eqn:E; [done|].
      assert (r ∈ filter (λ r, Rec.batch_id r = batch_id) (records db'))
        as [Hrb Hr]%list_elem_of_filter by (rewrite E; left).
      by destruct (Hrows r Hr). }
    split; [exact Hgone|].
    pose proof (get_batch_by_id_missing db' batch_id Hgone) as Hget.
    split; [exact Hget|].
    unfold Endpoints.get_batch. by rewrite Hget.
  - intros Hb%first_batch_missing.
    unfold Endpoints.delete_batch, BatchService.delete_batch, mbind, M_bind,
      query_batch_first.
    by rewrite Hb.
Qed.

Lemma delete_batch_cascades_witness :
  Endpoints.delete_batch 1 db_orders
  = (Success 200 {| message := "Successfully deleted batch 1";
                    details := [("batch_id", 1)] |},
     {| batches := []; records := []; next_batch_id := 2; next_record_id := 9 |})
  ∧ Endpoints.delete_batch 999 db_orders
    = (HTTPException 404 "Batch with id 999 not found", db_orders).
Proof.
  split; [reflexivity|].
  apply (proj2 (delete_batch_cascades db_orders 999)).
  apply (bool_decide_unpack _). by vm_compute.
Defined.

(** ** Validation before acting *)

Lemma get_batch_by_name_found (db : Session) (name : string) :
  name ∈ batch_names db →
  ∃ b, BatchService.get_batch_by_name name db = (Returns (Some b), db).
Proof.
  unfold batch_names. intros (b & Hname & Hb)%list_elem_of_fmap.
  unfold BatchService.get_batch_by_name, query_batch_first.
  destruct (filter (λ b, Batch.batch_name b = name) (batches db))
    as [|b' l] eqn:E; [|by exists b'].
  assert (b ∈ filter (λ b, Batch.batch_name b = name) (batches db)) as Hin
    by (apply list_elem_of_filter; auto).
  rewrite E in Hin. by apply elem_of_nil in Hin.
Qed.

Lemma verify_batch_exists_missing {A} (db : Session) (batch_id : Z)
    (rest : Endpoint A) :
  batch_id ∉ batch_ids db →
  Endpoints.verify_batch_exists batch_id rest db
  = (HTTPException HTTP_404_NOT_FOUND (not_found_msg batch_id), db).
Proof.
  intros Hget%get_batch_by_id_missing.
  unfold Endpoints.verify_batch_exists. by rewrite Hget.
Qed.

(** Creating a batch under a name that a stored batch already has answers
    400 with the duplicate-name detail and leaves the store as it was, so no
    batch is created. *)
Lemma create_batch_duplicate_name (db : Session) (batch : BatchCreate) :
  bc_batch_name batch ∈ batch_names db →
  Endpoints.create_batch batch db
  = (HTTPException HTTP_400_BAD_REQUEST
       ("Batch with name '" +:+ bc_batch_name batch +:+ "' already exists"),
     db).
Proof.
  intros [b Hb]%get_batch_by_name_found.
  unfold Endpoints.create_batch. by rewrite Hb.
Qed.

(** Creating a record, bulk-creating records, listing a batch's records and
    clearing them all answer 404 when no stored batch has the referenced
    identifier, and leave the store as it was. Listing by status checks the
    batch as well and changes nothing, but answers with the server error. *)
Lemma record_endpoints_unknown_batch (db : Session) (batch_id : Z) :
  batch_id ∉ batch_ids db →
  (∀ record,
     Endpoints.create_record batch_id record db
     = (HTTPException HTTP_404_NOT_FOUND (not_found_msg batch_id), db))
  ∧ (∀ rows,
     Endpoints.bulk_upload_records
       {| bu_batch_id := batch_id; bu_records := rows |} db
     = (HTTPException HTTP_404_NOT_FOUND (not_found_msg batch_id), db))
  ∧ Endpoints.get_records_by_batch batch_id db
    = (HTTPException HTTP_404_NOT_FOUND (not_found_msg batch_id), db)
  ∧ Endpoints.clear_batch_records batch_id db
    = (HTTPException HTTP_404_NOT_FOUND (not_found_msg batch_id), db)
  ∧ (∀ status,
     Endpoints.get_records_by_status batch_id status db
     = (HTTPException HTTP_500_INTERNAL_SERVER_ERROR "Internal Server Error",
        db)).
Proof.
  intros Hnot.
  repeat split; intros; try by apply verify_batch_exists_missing.
  unfold Endpoints.get_records_by_status.
  by rewrite (get_batch_by_id_missing db batch_id Hnot).
Qed.

Example create_batch_twice :
  Endpoints.create_batch sample_batch db_orders
  = (HTTPException 400 "Batch with name 'test_batch_orders' already exists",
     db_orders).
Proof. reflexivity. Qed.

(** C8, at the failing input. Batch 999 is not stored. Listing its records
    answers 404 with the not-found detail, as every record operation is
    meant to; listing its records by status does not: the endpoint checks
    the batch, finds none, and answers 500, the store being as it was. So
    does it in every store without the batch; creation under a taken name
    answers 400 and the four other record operations answer 404
    ([create_batch_duplicate_name], [record_endpoints_unknown_batch]). *)
Theorem list_by_status_unknown_batch_server_error :
  (999 ∉ batch_ids db_orders)
  ∧ Endpoints.get_records_by_batch 999 db_orders
    = (HTTPException 404 "Batch with id 999 not found", db_orders)
  ∧ Endpoints.get_records_by_status 999 EXPECTED db_orders
    = (HTTPException 500 "Internal Server Error", db_orders)
  ∧ Endpoints.get_records_by_status 999 PROCESSED db_orders
    = (HTTPException 500 "Internal Server Error", db_orders).
Proof.
  split; [apply (bool_decide_unpack _); by vm_compute|].
  repeat split; reflexivity.
Qed.

(** ** Reconciliation reads only *)

(** C9. [find_missing_records] leaves the store as it was, when it returns a
    result and when it raises not-found; so does the endpoint around it. *)
Theorem find_missing_records_read_only (db : Session) (batch_id : Z) :
  snd (RecordService.find_missing_records batch_id db) = db
  ∧ snd (Endpoints.analyze_missing_records batch_id db) = db.
Proof.
  unfold Endpoints.analyze_missing_records, try_except.
  destruct (head (filter (λ b, Batch.id b = batch_id) (batches db)))
    as [b|] eqn:Hb.
  - by rewrite (find_missing_records_found db batch_id b Hb).
  - by rewrite (find_missing_records_missing db batch_id Hb).
Qed.

(** ** Reconciliation: the counts *)

(** C10. In every result of [find_missing_records], [total_expected] and
    [total_processed] are the numbers of distinct expected and processed
    identifiers (the length of any list naming each of them once), never more
    than the statistics view's [expected_count] and [processed_count], which
    are the numbers of rows; [missing_count] and [unexpected_count] are the
    lengths of [missing_records] and [unexpected_records]. *)
Theorem find_missing_records_counts (db : Session) (batch_id : Z) :
  batch_id ∈ batch_ids db →
  ∃ r s, RecordService.find_missing_records batch_id db = (Returns r, db)
    ∧ RecordService.get_batch_statistics batch_id db = (Returns s, db)
    ∧ (∃ l, enumerates l (has_id db batch_id EXPECTED))
    ∧ (∀ l, enumerates l (has_id db batch_id EXPECTED) →
            total_expected r = len l)
    ∧ (∃ l, enumerates l (has_id db batch_id PROCESSED))
    ∧ (∀ l, enumerates l (has_id db batch_id PROCESSED) →
            total_processed r = len l)
    ∧ missing_count r = len (missing_records r)
    ∧ unexpected_count r = len (unexpected_records r)
    ∧ st_expected_count s = len (rows_with db batch_id EXPECTED)
    ∧ st_processed_count s = len (rows_with db batch_id PROCESSED)
    ∧ total_expected r ≤ st_expected_count s
    ∧ total_processed r ≤ st_processed_count s.
Proof.
  intros (b & Hb & _ & _)%first_batch_found.
  do 2 eexists. split; [by apply find_missing_records_found|].
  split; [by apply get_batch_statistics_found|]. simpl.
  split.
  { eexists. apply elements_enumerates. intros x. apply elem_of_id_set. }
  split.
  { intros l Hl. eapply set_len_enumerates; [exact Hl|].
    intros x. apply elem_of_id_set. }
  split.
  { eexists. apply elements_enumerates. intros x. apply elem_of_id_set. }
  split.
  { intros l Hl. eapply set_len_enumerates; [exact Hl|].
    intros x. apply elem_of_id_set. }
  rewrite !len_sorted_elements.
  repeat split; try done; apply set_len_id_set_le.
Qed.

Lemma find_missing_records_counts_witness :
  ∃ r s, RecordService.find_missing_records 1 db_duplicates
         = (Returns r, db_duplicates)
    ∧ RecordService.get_batch_statistics 1 db_duplicates
      = (Returns s, db_duplicates)
    ∧ total_expected r = 1 ∧ st_expected_count s = 2
    ∧ total_processed r = 1 ∧ st_processed_count s = 2.
Proof.
  destruct (find_missing_records_counts db_duplicates 1)
    as (r & s & Hr & Hs & _); [by left|].
  exists r, s. split; [exact Hr|]. split; [exact Hs|].
  vm_compute in Hs, Hr. injection Hs as <-. by injection Hr as <-.
Defined.

(** * Further properties of the access layer *)

(** ** Creating and fetching batches *)

Lemma get_batch_by_name_missing (db : Session) (name : string) :
  name ∉ batch_names db →
  BatchService.get_batch_by_name name db = (Returns None, db).
Proof.
  unfold batch_names. intros Hnot.
  unfold BatchService.get_batch_by_name, query_batch_first.
  destruct (filter (λ b, Batch.batch_name b = name) (batches db))
    as [|b l] eqn:E; [done|].
  assert (b ∈ filter (λ b, Batch.batch_name b = name) (batches db))
    as [Hname Hin]%list_elem_of_filter by (rewrite E; left).
  exfalso. apply Hnot, list_elem_of_fmap. eauto.
Qed.

(** What the creating endpoint does under a free name. *)
Lemma create_batch_fresh (db : Session) (batch : BatchCreate) :
  bc_batch_name batch ∉ batch_names db →
  let b := Batch.mk (next_batch_id db) (bc_batch_name batch)
                    (bc_record_type batch) (bc_description batch) in
  Endpoints.create_batch batch db
  = (Success HTTP_201_CREATED b,
     {| batches := batches db ++ [b];
        records := records db;
        next_batch_id := next_batch_id db + 1;
        next_record_id := next_record_id db |}).
Proof.
  intros Hfree b. unfold Endpoints.create_batch.
  rewrite (get_batch_by_name_missing db _ Hfree).
  unfold try_except, BatchService.create_batch, add_commit_batch.
  by rewrite decide_False.
Qed.

(** The first row that satisfies a filter, when the rows before it do not. *)
Lemma head_filter_app_fresh {A} (P : A → Prop) `{!∀ x, Decision (P x)}
    (l : list A) (x : A) :
  (∀ y, y ∈ l → ¬ P y) → P x → head (filter P (l ++ [x])) = Some x.
Proof.
  intros Hl Hx. rewrite filter_app.
  replace (filter P l) with (@nil A).
  - simpl. rewrite filter_cons, decide_True by done. done.
  - symmetry. destruct (filter P l) as [|y l'] eqn:E; [done|].
    assert (y ∈ filter P l) as [HP Hin]%list_elem_of_filter
      by (rewrite E; left).
    by destruct (Hl y Hin).
Qed.

(** X1. A batch created under a free name is answered with status 201 and
    carries the name, type and description of the request; it is then
    fetched by its identifier (status 200) and found by its name, it comes
    last in the list of all batches, after the batches stored before, and no
    record is touched. The new primary key must be unused, as the sequence of
    the table guarantees. *)
Theorem create_batch_then_fetch (db : Session) (batch : BatchCreate) :
  bc_batch_name batch ∉ batch_names db →
  next_batch_id db ∉ batch_ids db →
  ∃ b db',
    Endpoints.create_batch batch db = (Success HTTP_201_CREATED b, db')
    ∧ Batch.batch_name b = bc_batch_name batch
    ∧ Batch.record_type b = bc_record_type batch
    ∧ Batch.description b = bc_description batch
    ∧ Endpoints.get_batch (Batch.id b) db' = (Success HTTP_200_OK b, db')
    ∧ BatchService.get_batch_by_name (bc_batch_name batch) db'
      = (Returns (Some b), db')
    ∧ Endpoints.get_all_batches db'
      = (Success HTTP_200_OK (batches db ++ [b]), db')
    ∧ records db' = records db.
Proof.
  intros Hfree Hkey. do 2 eexists.
  split; [by apply create_batch_fresh|]. simpl.
  repeat split.
  - unfold Endpoints.get_batch, BatchService.get_batch_by_id,
      query_batch_first. simpl.
    rewrite head_filter_app_fresh; [done| |done].
    intros y Hy Hid. apply Hkey. unfold batch_ids.
    apply list_elem_of_fmap. eauto.
  - unfold BatchService.get_batch_by_name, query_batch_first. simpl.
    rewrite head_filter_app_fresh; [done| |done].
    intros y Hy Hname. apply Hfree. unfold batch_names.
    apply list_elem_of_fmap. eauto.
Qed.

Lemma create_batch_then_fetch_witness :
  ∃ b db',
    Endpoints.create_batch files_request db_orders
    = (Success HTTP_201_CREATED b, db')
    ∧ Endpoints.get_batch (Batch.id b) db' = (Success HTTP_200_OK b, db').
Proof.
  destruct (create_batch_then_fetch db_orders files_request)
    as (b & db' & Hc & _ & _ & _ & Hg & _).
  - apply (bool_decide_unpack _). by vm_compute.
  - apply (bool_decide_unpack _). by vm_compute.
  - by exists b, db'.
Defined.

(** X2. After a batch was created under a free name, a second request with
    that name, whatever its type and description, is answered with status 400
    and the duplicate-name detail, and leaves the store exactly as the first
    request left it. *)
Theorem create_batch_twice_rejected (db : Session) (batch again : BatchCreate) :
  bc_batch_name batch ∉ batch_names db →
  bc_batch_name again = bc_batch_name batch →
  ∃ b db',
    Endpoints.create_batch batch db = (Success HTTP_201_CREATED b, db')
    ∧ Endpoints.create_batch again db'
      = (HTTPException HTTP_400_BAD_REQUEST
           ("Batch with name '" +:+ bc_batch_name batch +:+ "' already exists"),
         db').
Proof.
  intros Hfree Hsame. do 2 eexists.
  split; [by apply create_batch_fresh|].
  rewrite <- Hsame. apply create_batch_duplicate_name.
  unfold batch_names. simpl. rewrite fmap_app, elem_of_app. right.
  rewrite Hsame. simpl. left.
Qed.

Lemma create_batch_twice_rejected_witness :
  ∃ b db',
    Endpoints.create_batch sample_batch empty_db
    = (Success HTTP_201_CREATED b, db')
    ∧ status_of (fst (Endpoints.create_batch sample_batch db')) = 400.
Proof.
  destruct (create_batch_twice_rejected empty_db sample_batch sample_batch)
    as (b & db' & Hc & Hd).
  - apply (bool_decide_unpack _). by vm_compute.
  - reflexivity.
  - exists b, db'. split; [exact Hc|]. by rewrite Hd.
Defined.

(** ** What the writing endpoints leave in the store *)

Lemma verify_batch_exists_found {A} (db : Session) (batch_id : Z)
    (rest : Endpoint A) :
  batch_id ∈ batch_ids db →
  Endpoints.verify_batch_exists batch_id rest db = rest db.
Proof.
  intros (b & Hget & _)%get_batch_by_id_found.
  unfold Endpoints.verify_batch_exists. by rewrite Hget.
Qed.

Lemma create_record_found (db : Session) (batch_id : Z) (record : RecordCreate) :
  batch_id ∈ batch_ids db →
  let r := Rec.mk (next_record_id db) (rc_record_id record) batch_id
                  (rc_status record) (rc_record_metadata record) in
  Endpoints.create_record batch_id record db
  = (Success HTTP_201_CREATED r,
     {| batches := batches db;
        records := records db ++ [r];
        next_batch_id := next_batch_id db;
        next_record_id := next_record_id db + 1 |}).
Proof.
  intros Hb r. unfold Endpoints.create_record.
  by rewrite verify_batch_exists_found.
Qed.

Lemma bulk_upload_records_found (db : Session) (bulk_data : RecordBulkUpload) :
  bu_batch_id bulk_data ∈ batch_ids db →
  let rows := number_records (next_record_id db) (bu_batch_id bulk_data)
                             (bu_records bulk_data) in
  Endpoints.bulk_upload_records bulk_data db
  = (Success HTTP_201_CREATED
       {| message :=
            "Successfully uploaded " +:+ pretty (len rows) +:+ " records";
          details := [("count", len rows);
                      ("batch_id", bu_batch_id bulk_data)] |},
     {| batches := batches db;
        records := records db ++ rows;
        next_batch_id := next_batch_id db;
        next_record_id := next_record_id db + len (bu_records bulk_data) |}).
Proof.
  intros Hb rows. unfold Endpoints.bulk_upload_records.
  by rewrite verify_batch_exists_found.
Qed.

Lemma clear_batch_records_found (db : Session) (batch_id : Z) :
  batch_id ∈ batch_ids db →
  Endpoints.clear_batch_records batch_id db
  = (Success HTTP_200_OK
       {| message :=
            "Successfully deleted all records for batch " +:+ pretty batch_id;
          details := [("deleted_count", len (rows_of db batch_id));
                      ("batch_id", batch_id)] |},
     {| batches := batches db;
        records := filter (λ r, ¬ Rec.batch_id r = batch_id) (records db);
        next_batch_id := next_batch_id db;
        next_record_id := next_record_id db |}).
Proof.
  intros Hb. unfold Endpoints.clear_batch_records.
  by rewrite verify_batch_exists_found.
Qed.

Lemma delete_batch_found (db : Session) (batch_id : Z) (b : Batch.t) :
  head (filter (λ b, Batch.id b = batch_id) (batches db)) = Some b →
  Endpoints.delete_batch batch_id db
  = (Success HTTP_200_OK
       {| message := "Successfully deleted batch " +:+ pretty batch_id;
          details := [("batch_id", batch_id)] |},
     snd (delete_commit_batch b db)).
Proof.
  intros Hb.
  unfold Endpoints.delete_batch, BatchService.delete_batch, mbind, M_bind,
    query_batch_first.
  by rewrite Hb.
Qed.

Lemma delete_batch_missing (db : Session) (batch_id : Z) :
  batch_id ∉ batch_ids db →
  Endpoints.delete_batch batch_id db
  = (HTTPException HTTP_404_NOT_FOUND (not_found_msg batch_id), db).
Proof.
  intros Hb%first_batch_missing.
  unfold Endpoints.delete_batch, BatchService.delete_batch, mbind, M_bind,
    query_batch_first.
  by rewrite Hb.
Qed.

(** The rows written by a bulk insert: consecutive keys, the batch of the
    request, and the fields of the request in its order. *)
Lemma number_records_keys (next batch_id : Z) (l : list RecordCreate) :
  Rec.id <$> number_records next batch_id l = seqZ next (len l).
Proof.
  revert next. induction l as [|x l IH]; intros next; [done|].
  simpl. rewrite IH. unfold len. simpl length.
  rewrite (seqZ_cons next) by lia. do 2 f_equal. lia.
Qed.

Lemma number_records_fields (next batch_id : Z) (l : list RecordCreate) :
  Rec.record_id <$> number_records next batch_id l = rc_record_id <$> l
  ∧ Rec.status <$> number_records next batch_id l = rc_status <$> l
  ∧ Rec.record_metadata <$> number_records next batch_id l
    = rc_record_metadata <$> l
  ∧ Forall (λ r, Rec.batch_id r = batch_id) (number_records next batch_id l).
Proof.
  revert next. induction l as [|x l IH]; intros next;
    [by repeat split|].
  destruct (IH (next + 1)) as (H1 & H2 & H3 & H4).
  cbn [number_records]. rewrite !fmap_cons, H1, H2, H3.
  repeat split. by constructor.
Qed.

Lemma number_records_app (next batch_id : Z) (l1 l2 : list RecordCreate) :
  number_records next batch_id (l1 ++ l2)
  = number_records next batch_id l1
    ++ number_records (next + len l1) batch_id l2.
Proof.
  revert next. induction l1 as [|x l1 IH]; intros next.
  - simpl. f_equal. unfold len. simpl. lia.
  - simpl. rewrite IH. do 3 f_equal. unfold len. simpl length. lia.
Qed.


(** ** The reading routes *)

Lemma GET_read_only (req : Request) (db : Session) :
  is_GET req = true → snd (serve req db) = db.
Proof.
  destruct req as [| |batch_id| | | |batch_id|batch_id st|batch_id|batch_id
                  |batch_id|]; try discriminate; intros _; simpl; try done.
  - unfold Endpoints.get_batch, BatchService.get_batch_by_id,
      query_batch_first.
    by destruct (head _).
  - destruct (decide (batch_id ∈ batch_ids db)) as [Hb|Hb].
    + unfold Endpoints.get_records_by_batch.
      by rewrite verify_batch_exists_found.
    + unfold Endpoints.get_records_by_batch.
      by rewrite verify_batch_exists_missing.
  - unfold Endpoints.get_records_by_status, BatchService.get_batch_by_id,
      query_batch_first.
    by destruct (head _).
  - unfold Endpoints.analyze_missing_records, try_except.
    destruct (head (filter (λ b, Batch.id b = batch_id) (batches db)))
      as [b|] eqn:Hb.
    + by rewrite (find_missing_records_found db batch_id b Hb).
    + by rewrite (find_missing_records_missing db batch_id Hb).
  - unfold Endpoints.get_processing_status, try_except.
    destruct (head (filter (λ b, Batch.id b = batch_id) (batches db)))
      as [b|] eqn:Hb.
    + by rewrite (get_processing_status_found db batch_id b Hb).
    + by rewrite (get_processing_status_missing db batch_id Hb).
  - unfold Endpoints.get_batch_statistics, try_except.
    destruct (head (filter (λ b, Batch.id b = batch_id) (batches db)))
      as [b|] eqn:Hb.
    + by rewrite (get_batch_statistics_found db batch_id b Hb).
    + by rewrite (get_batch_statistics_missing db batch_id Hb).
Qed.

(** X3. Requests with method GET never change the store: after any sequence
    of GET requests (listing and fetching batches, listing records, the three
    analyses), found or not found, every table and sequence is as before. *)
Theorem GET_requests_leave_store (reqs : list Request) (db : Session) :
  forallb is_GET reqs = true → run reqs db = db.
Proof.
  revert db. induction reqs as [|req reqs IH]; intros db Hget; [done|].
  simpl in Hget. apply andb_true_iff in Hget as [Hreq Hreqs].
  unfold run. simpl. rewrite GET_read_only by done. by apply IH.
Qed.

Lemma GET_requests_leave_store_witness :
  run [GET_batches; GET_batches_id 7; GET_records_batch_status 1 EXPECTED;
       GET_records_batch_status 7 PROCESSED; GET_analysis_missing 1;
       GET_analysis_statistics 7; GET_analysis_status 1] db_orders
  = db_orders.
Proof. by apply GET_requests_leave_store. Defined.

(** ** The constraints of the schema are kept *)

Section invariant.

Lemma well_formed_empty : well_formed empty_db.
Proof.
  split; simpl; try apply NoDup_nil_2; intros ? Hin;
    by apply elem_of_nil in Hin.
Qed.

Lemma well_formed_create_batch (db : Session) (batch : BatchCreate) :
  well_formed db → well_formed (snd (Endpoints.create_batch batch db)).
Proof.
  intros Hwf.
  destruct (decide (bc_batch_name batch ∈ batch_names db)) as [Htaken|Hfree].
  { by rewrite create_batch_duplicate_name. }
  rewrite create_batch_fresh by done. simpl.
  destruct Hwf as [Hkeys Hnames Hrkeys Hseq Hrseq Hfk].
  assert (next_batch_id db ∉ batch_ids db) as Hnew.
  { intros Hin. apply Hseq in Hin. lia. }
  split; unfold batch_ids, batch_names in *; simpl.
  - rewrite fmap_app. apply NoDup_app. repeat split; [done| |apply NoDup_singleton].
    intros k Hk Hk'%list_elem_of_singleton. by subst k.
  - rewrite fmap_app. apply NoDup_app. repeat split; [done| |apply NoDup_singleton].
    intros k Hk Hk'%list_elem_of_singleton. by subst k.
  - done.
  - intros k. rewrite fmap_app, elem_of_app. simpl.
    intros [Hk|Hk%list_elem_of_singleton]; [apply Hseq in Hk|]; lia.
  - done.
  - intros r Hr. rewrite fmap_app, elem_of_app. left. by apply Hfk.
Qed.

Lemma well_formed_insert_records (db : Session) (batch_id : Z)
    (l : list RecordCreate) :
  well_formed db → batch_id ∈ batch_ids db →
  well_formed
    {| batches := batches db;
       records := records db ++ number_records (next_record_id db) batch_id l;
       next_batch_id := next_batch_id db;
       next_record_id := next_record_id db + len l |}.
Proof.
  intros [Hkeys Hnames Hrkeys Hseq Hrseq Hfk] Hb.
  split; unfold batch_ids, batch_names in *; simpl; try done.
  - rewrite fmap_app, number_records_keys. apply NoDup_app.
    repeat split; [done| |apply NoDup_seqZ].
    intros k Hk Hk'%elem_of_seqZ. apply Hrseq in Hk. lia.
  - intros k. rewrite fmap_app, number_records_keys, elem_of_app.
    intros [Hk|Hk%elem_of_seqZ]; [apply Hrseq in Hk|]; unfold len in *; lia.
  - intros r [Hr|Hr]%elem_of_app; [by apply Hfk|].
    destruct (number_records_fields (next_record_id db) batch_id l)
      as (_ & _ & _ & Hall).
    rewrite Forall_forall in Hall. by rewrite (Hall r Hr).
Qed.

Lemma well_formed_delete_batch (db : Session) (batch_id : Z) :
  well_formed db → well_formed (snd (Endpoints.delete_batch batch_id db)).
Proof.
  intros Hwf.
  destruct (head (filter (λ b, Batch.id b = batch_id) (batches db)))
    as [b|] eqn:Hb.
  2:{ unfold Endpoints.delete_batch, BatchService.delete_batch, mbind, M_bind,
        query_batch_first. by rewrite Hb. }
  rewrite (delete_batch_found db batch_id b Hb).
  destruct Hwf as [Hkeys Hnames Hrkeys Hseq Hrseq Hfk].
  split; unfold batch_ids, batch_names in *; simpl.
  - eapply sublist_NoDup; [exact Hkeys|]. apply fmap_sublist, sublist_filter.
  - eapply sublist_NoDup; [exact Hnames|]. apply fmap_sublist, sublist_filter.
  - eapply sublist_NoDup; [exact Hrkeys|]. apply fmap_sublist, sublist_filter.
  - intros k (b' & -> & [_ Hin]%list_elem_of_filter)%list_elem_of_fmap.
    apply Hseq, list_elem_of_fmap. eauto.
  - intros k (r & -> & [_ Hin]%list_elem_of_filter)%list_elem_of_fmap.
    apply Hrseq, list_elem_of_fmap. eauto.
  - intros r [Hkey Hin]%list_elem_of_filter.
    pose proof (Hfk r Hin) as (b' & Hid & Hb')%list_elem_of_fmap.
    apply list_elem_of_fmap. exists b'. split; [done|].
    apply list_elem_of_filter. split; [|done].
    intros Hsame. apply Hkey. apply list_elem_of_fmap. exists r.
    split; [done|]. apply list_elem_of_filter. split; [congruence|done].
Qed.

Lemma well_formed_clear_records (db : Session) (batch_id : Z) :
  well_formed db →
  well_formed (snd (Endpoints.clear_batch_records batch_id db)).
Proof.
  intros Hwf.
  destruct (decide (batch_id ∈ batch_ids db)) as [Hb|Hb].
  2:{ unfold Endpoints.clear_batch_records.
      by rewrite verify_batch_exists_missing. }
  rewrite clear_batch_records_found by done.
  destruct Hwf as [Hkeys Hnames Hrkeys Hseq Hrseq Hfk].
  split; unfold batch_ids, batch_names in *; simpl; try done.
  - eapply sublist_NoDup; [exact Hrkeys|]. apply fmap_sublist, sublist_filter.
  - intros k (r & -> & [_ Hin]%list_elem_of_filter)%list_elem_of_fmap.
    apply Hrseq, list_elem_of_fmap. eauto.
  - intros r [_ Hin]%list_elem_of_filter. by apply Hfk.
Qed.

Lemma well_formed_serve (req : Request) (db : Session) :
  well_formed db → well_formed (snd (serve req db)).
Proof.
  intros Hwf. destruct (is_GET req) eqn:Hget.
  { by rewrite GET_read_only. }
  destruct req as [batch| | |batch_id|batch_id record|bulk_data| | | | | |batch_id];
    try discriminate; simpl.
  - by apply well_formed_create_batch.
  - by apply well_formed_delete_batch.
  - destruct (decide (batch_id ∈ batch_ids db)) as [Hb|Hb].
    + rewrite create_record_found by done. simpl.
      by apply (well_formed_insert_records db batch_id [record]).
    + unfold Endpoints.create_record. by rewrite verify_batch_exists_missing.
  - destruct (decide (bu_batch_id bulk_data ∈ batch_ids db)) as [Hb|Hb].
    + rewrite bulk_upload_records_found by done. simpl.
      by apply well_formed_insert_records.
    + unfold Endpoints.bulk_upload_records.
      by rewrite verify_batch_exists_missing.
  - by apply well_formed_clear_records.
Qed.

Lemma well_formed_run (reqs : list Request) (db : Session) :
  well_formed db → well_formed (run reqs db).
Proof.
  revert db. induction reqs as [|req reqs IH]; intros db Hwf; [done|].
  unfold run. simpl. apply IH. by apply well_formed_serve.
Qed.

End invariant.

(** X4. Whatever requests are served, in whatever order, starting from the
    empty tables, the store keeps the constraints of the schema: primary keys
    of batches and of records are unique and below their sequences, batch
    names are unique, and every record refers to a stored batch (no record
    outlives its batch, none is created for a batch that does not exist). *)
Theorem reachable_stores_well_formed (reqs : list Request) :
  well_formed (run reqs empty_db).
Proof. apply well_formed_run, well_formed_empty. Qed.

(** ** Uploading and clearing records *)

Lemma filter_ext_in {A} (P Q : A → Prop) `{!∀ x, Decision (P x)}
    `{!∀ x, Decision (Q x)} (l : list A) :
  (∀ x, x ∈ l → (P x ↔ Q x)) → filter P l = filter Q l.
Proof.
  induction l as [|x l IH]; intros Hext; [done|].
  rewrite !filter_cons.
  rewrite IH by (intros y Hy; apply Hext; by right).
  destruct (decide (P x)) as [HP|HP]; destruct (decide (Q x)) as [HQ|HQ];
    try done; exfalso; pose proof (Hext x ltac:(left)); tauto.
Qed.

Lemma filter_none {A} (P : A → Prop) `{!∀ x, Decision (P x)} (l : list A) :
  (∀ x, x ∈ l → ¬ P x) → filter P l = [].
Proof.
  intros Hl. destruct (filter P l) as [|y l'] eqn:E; [done|].
  assert (y ∈ filter P l) as [HP Hin]%list_elem_of_filter by (rewrite E; left).
  by destruct (Hl y Hin).
Qed.




(** X6. An upload may be split: uploading [l1] and then [l2] into a batch
    leaves the same store, primary keys included, as uploading [l1 ++ l2] at
    once, and creating one record leaves the same store as a bulk upload of
    that record alone. This holds for a stored batch and for an unknown one,
    where nothing is written either way. *)
Theorem bulk_upload_splits (db : Session) (batch_id : Z)
    (l1 l2 : list RecordCreate) (record : RecordCreate) :
  snd (Endpoints.bulk_upload_records
         {| bu_batch_id := batch_id; bu_records := l1 ++ l2 |} db)
  = snd (Endpoints.bulk_upload_records
           {| bu_batch_id := batch_id; bu_records := l2 |}
           (snd (Endpoints.bulk_upload_records
                   {| bu_batch_id := batch_id; bu_records := l1 |} db)))
  ∧ snd (Endpoints.create_record batch_id record db)
    = snd (Endpoints.bulk_upload_records
             {| bu_batch_id := batch_id; bu_records := [record] |} db).
Proof.
  destruct (decide (batch_id ∈ batch_ids db)) as [Hb|Hb].
  - split.
    + rewrite (bulk_upload_records_found db) by done.
      rewrite (bulk_upload_records_found db {| bu_records := l1 |}) by done.
      rewrite bulk_upload_records_found by done. simpl.
      rewrite number_records_app, <- app_assoc.
      f_equal. unfold len. rewrite length_app. lia.
    + by rewrite create_record_found, bulk_upload_records_found.
  - destruct (record_endpoints_unknown_batch db batch_id Hb)
      as (Hcreate & Hbulk & _).
    by rewrite Hcreate, !Hbulk.
Qed.

(** ** What an analysis depends on *)

Lemma rows_with_rows_of (db : Session) (batch_id : Z) (st : RecordStatus) :
  rows_with db batch_id st = filter (λ r, Rec.status r = st) (rows_of db batch_id).
Proof.
  unfold rows_with, rows_of. rewrite list_filter_filter.
  apply list_filter_iff. tauto.
Qed.

(** The three analyses of a batch read the first batch with that identifier
    and the rows of the batch, nothing else. *)
Lemma analysis_ext (db db' : Session) (batch_id : Z) :
  head (filter (λ b, Batch.id b = batch_id) (batches db'))
  = head (filter (λ b, Batch.id b = batch_id) (batches db)) →
  rows_of db' batch_id = rows_of db batch_id →
  fst (RecordService.find_missing_records batch_id db')
  = fst (RecordService.find_missing_records batch_id db)
  ∧ fst (RecordService.get_processing_status batch_id db')
    = fst (RecordService.get_processing_status batch_id db)
  ∧ fst (RecordService.get_batch_statistics batch_id db')
    = fst (RecordService.get_batch_statistics batch_id db).
Proof.
  intros Hbatch Hrows.
  assert (∀ st, rows_with db' batch_id st = rows_with db batch_id st) as Hwith.
  { intros st. by rewrite !rows_with_rows_of, Hrows. }
  assert (∀ st, id_column db' batch_id st = id_column db batch_id st) as Hcol.
  { intros st. unfold id_column. by rewrite Hwith. }
  assert (∀ st, id_set db' batch_id st = id_set db batch_id st) as Hset.
  { intros st. unfold id_set. by rewrite Hcol. }
  destruct (head (filter (λ b, Batch.id b = batch_id) (batches db)))
    as [b|] eqn:Hb.
  - rewrite (find_missing_records_found db' batch_id b Hbatch),
      (find_missing_records_found db batch_id b Hb),
      (get_processing_status_found db' batch_id b Hbatch),
      (get_processing_status_found db batch_id b Hb),
      (get_batch_statistics_found db' batch_id b Hbatch),
      (get_batch_statistics_found db batch_id b Hb).
    simpl. rewrite !Hset, !Hcol, !Hwith.
    fold (rows_of db' batch_id). fold (rows_of db batch_id).
    by rewrite Hrows.
  - by rewrite (find_missing_records_missing db' batch_id Hbatch),
      (find_missing_records_missing db batch_id Hb),
      (get_processing_status_missing db' batch_id Hbatch),
      (get_processing_status_missing db batch_id Hb),
      (get_batch_statistics_missing db' batch_id Hbatch),
      (get_batch_statistics_missing db batch_id Hb).
Qed.

(** Removing the rows of one batch leaves the rows of another. *)
Lemma rows_of_filter_other (l : list Rec.t) (batch_id other : Z) :
  other ≠ batch_id →
  filter (λ r, Rec.batch_id r = other)
         (filter (λ r, ¬ Rec.batch_id r = batch_id) l)
  = filter (λ r, Rec.batch_id r = other) l.
Proof.
  intros Hother. rewrite list_filter_filter. apply list_filter_iff.
  intros r. split; [tauto|]. intros Hr. split; [done|congruence].
Qed.

(** X7. Clearing the records of a stored batch is answered with status 200
    and the number of rows the batch had; afterwards the batch is still
    stored and has no row, the rows of every other batch are as before, in
    the same order, and clearing again is answered with a count of zero and
    changes nothing. *)
Theorem clear_batch_records_effect (db : Session) (batch_id : Z) :
  batch_id ∈ batch_ids db →
  ∃ body db',
    Endpoints.clear_batch_records batch_id db = (Success HTTP_200_OK body, db')
    ∧ details body = [("deleted_count", len (rows_of db batch_id));
                      ("batch_id", batch_id)]
    ∧ batches db' = batches db
    ∧ rows_of db' batch_id = []
    ∧ Endpoints.get_records_by_batch batch_id db' = (Success HTTP_200_OK [], db')
    ∧ (∀ other, other ≠ batch_id → rows_of db' other = rows_of db other)
    ∧ ∃ body',
        Endpoints.clear_batch_records batch_id db'
        = (Success HTTP_200_OK body', db')
        ∧ details body' = [("deleted_count", 0); ("batch_id", batch_id)].
Proof.
  intros Hb. do 2 eexists.
  split; [by apply clear_batch_records_found|]. simpl.
  assert (filter (λ r, Rec.batch_id r = batch_id)
                 (filter (λ r, ¬ Rec.batch_id r = batch_id) (records db)) = [])
    as Hnone.
  { apply filter_none. by intros r [Hr _]%list_elem_of_filter. }
  split; [done|]. split; [done|].
  split; [exact Hnone|].
  split.
  { unfold Endpoints.get_records_by_batch.
    rewrite verify_batch_exists_found by done.
    unfold try_except, RecordService.get_records_by_batch, query_record_all.
    simpl. by rewrite Hnone. }
  split.
  { intros other Hother. unfold rows_of. simpl.
    by apply rows_of_filter_other. }
  eexists. rewrite clear_batch_records_found by done.
  unfold rows_of. simpl. rewrite Hnone. split.
  - apply pair_equal_spec. split; [reflexivity|]. f_equal.
    rewrite list_filter_filter. apply list_filter_iff. tauto.
  - done.
Qed.

Lemma clear_batch_records_effect_witness :
  ∃ body db',
    Endpoints.clear_batch_records 1 db_two_batches
    = (Success HTTP_200_OK body, db')
    ∧ details body = [("deleted_count", 3); ("batch_id", 1)]
    ∧ rows_of db' 2 = [expected_row 2 500 2; processed_row 5 77 2].
Proof.
  destruct (clear_batch_records_effect db_two_batches 1)
    as (body & db' & Hclear & Hd & _ & _ & _ & Hother & _); [by left|].
  exists body, db'. split; [exact Hclear|]. split; [exact Hd|].
  by rewrite Hother.
Defined.

(** ** Batches do not interfere *)

Lemma NoDup_fmap_inj_on {A B} (f : A → B) (l : list A) (x y : A) :
  NoDup (f <$> l) → x ∈ l → y ∈ l → f x = f y → x = y.
Proof.
  induction l as [|a l IH]; intros Hnd Hx Hy Hf;
    [by apply elem_of_nil in Hx|].
  rewrite fmap_cons in Hnd. apply NoDup_cons in Hnd as [Ha Hnd].
  apply elem_of_cons in Hx as [->|Hx]; apply elem_of_cons in Hy as [->|Hy].
  - done.
  - exfalso. apply Ha. rewrite Hf. apply list_elem_of_fmap. eauto.
  - exfalso. apply Ha. rewrite <- Hf. apply list_elem_of_fmap. eauto.
  - by apply IH.
Qed.

(** With unique primary keys, the cascade removes the rows of the batch and
    no other row. *)
Lemma delete_commit_batch_records (db : Session) (b : Batch.t) :
  NoDup (Rec.id <$> records db) →
  records (snd (delete_commit_batch b db))
  = filter (λ r, ¬ Rec.batch_id r = Batch.id b) (records db).
Proof.
  intros Hnd. simpl. apply filter_ext_in. intros r Hr.
  split; intros Hkeep Hchild; apply Hkeep.
  - apply list_elem_of_fmap. exists r. split; [done|].
    by apply list_elem_of_filter.
  - apply list_elem_of_fmap in Hchild as (r' & Hid & [Hb' Hr']%list_elem_of_filter).
    by rewrite (NoDup_fmap_inj_on Rec.id (records db) r r' Hnd Hr Hr' Hid).
Qed.

Lemma first_batch_filter_other (l : list Batch.t) (batch_id other : Z) :
  other ≠ batch_id →
  head (filter (λ b, Batch.id b = other)
               (filter (λ b, Batch.id b ≠ batch_id) l))
  = head (filter (λ b, Batch.id b = other) l).
Proof.
  intros Hother. f_equal. rewrite list_filter_filter. apply list_filter_iff.
  intros b. split; [tauto|]. intros Hb. split; [done|congruence].
Qed.

(** X8. In a store whose record keys are unique, deleting a stored batch
    removes exactly the batches with that identifier and exactly the rows of
    that batch; for every other batch identifier the reconciliation, the
    status view and the statistics answer after the deletion what they
    answered before. *)
Theorem delete_batch_keeps_others (db : Session) (batch_id : Z) :
  NoDup (Rec.id <$> records db) →
  batch_id ∈ batch_ids db →
  ∃ body db',
    Endpoints.delete_batch batch_id db = (Success HTTP_200_OK body, db')
    ∧ batches db' = filter (λ b, Batch.id b ≠ batch_id) (batches db)
    ∧ records db' = filter (λ r, ¬ Rec.batch_id r = batch_id) (records db)
    ∧ ∀ other, other ≠ batch_id →
        rows_of db' other = rows_of db other
        ∧ fst (RecordService.find_missing_records other db')
          = fst (RecordService.find_missing_records other db)
        ∧ fst (RecordService.get_processing_status other db')
          = fst (RecordService.get_processing_status other db)
        ∧ fst (RecordService.get_batch_statistics other db')
          = fst (RecordService.get_batch_statistics other db).
Proof.
  intros Hnd (b & Hb & _ & Hid)%first_batch_found.
  do 2 eexists. split; [by apply delete_batch_found|].
  pose proof (delete_commit_batch_records db b Hnd) as Hrecords.
  rewrite Hid in Hrecords.
  assert (batches (snd (delete_commit_batch b db))
          = filter (λ b, Batch.id b ≠ batch_id) (batches db)) as Hbatches
    by (simpl; by rewrite Hid).
  split; [exact Hbatches|]. split; [exact Hrecords|].
  intros other Hother.
  assert (rows_of (snd (delete_commit_batch b db)) other = rows_of db other)
    as Hrows.
  { unfold rows_of. rewrite Hrecords. by apply rows_of_filter_other. }
  split; [exact Hrows|].
  apply analysis_ext; [|exact Hrows].
  rewrite Hbatches. by apply first_batch_filter_other.
Qed.

Lemma delete_batch_keeps_others_witness :
  ∃ body db',
    Endpoints.delete_batch 1 db_two_batches = (Success HTTP_200_OK body, db')
    ∧ batches db' = [files_batch]
    ∧ records db' = [expected_row 2 500 2; processed_row 5 77 2].
Proof.
  destruct (delete_batch_keeps_others db_two_batches 1)
    as (body & db' & Hdel & Hb & Hr & _).
  - apply (bool_decide_unpack _). by vm_compute.
  - by left.
  - exists body, db'. split; [exact Hdel|]. by rewrite Hb, Hr.
Defined.

(** X9. Writing to one batch does not change the analysis of another:
    creating a record in a batch, uploading records into it in bulk or
    clearing its records leaves the reconciliation, the status view and the
    statistics of every other batch identifier as they were. *)
Theorem record_writes_are_local (db : Session) (batch_id other : Z)
    (record : RecordCreate) (rows : list RecordCreate) :
  other ≠ batch_id →
  ∀ db',
    db' = snd (Endpoints.create_record batch_id record db)
    ∨ db' = snd (Endpoints.bulk_upload_records
                   {| bu_batch_id := batch_id; bu_records := rows |} db)
    ∨ db' = snd (Endpoints.clear_batch_records batch_id db) →
    fst (RecordService.find_missing_records other db')
    = fst (RecordService.find_missing_records other db)
    ∧ fst (RecordService.get_processing_status other db')
      = fst (RecordService.get_processing_status other db)
    ∧ fst (RecordService.get_batch_statistics other db')
      = fst (RecordService.get_batch_statistics other db).
Proof.
  intros Hother db' Hdb'.
  destruct (decide (batch_id ∈ batch_ids db)) as [Hb|Hb].
  2:{ destruct (record_endpoints_unknown_batch db batch_id Hb)
        as (Hcreate & Hbulk & _ & Hclear & _).
      rewrite Hcreate, Hbulk, Hclear in Hdb'. simpl in Hdb'.
      by destruct Hdb' as [->|[->| ->]]. }
  assert (∀ new : list Rec.t,
            Forall (λ r, Rec.batch_id r = batch_id) new →
            filter (λ r, Rec.batch_id r = other) (records db ++ new)
            = filter (λ r, Rec.batch_id r = other) (records db)) as Happ.
  { intros new Hnew. rewrite filter_app, (filter_none _ new), app_nil_r; [done|].
    rewrite Forall_forall in Hnew. intros r Hr. rewrite (Hnew r Hr).
    congruence. }
  apply analysis_ext.
  - destruct Hdb' as [->|[->| ->]].
    + by rewrite create_record_found.
    + by rewrite bulk_upload_records_found.
    + by rewrite clear_batch_records_found.
  - unfold rows_of. destruct Hdb' as [->|[->| ->]].
    + rewrite create_record_found by done. simpl.
      apply Happ. by repeat constructor.
    + rewrite bulk_upload_records_found by done. simpl.
      apply Happ. apply number_records_fields.
    + rewrite clear_batch_records_found by done. simpl.
      by apply rows_of_filter_other.
Qed.

Lemma record_writes_are_local_witness :
  fst (RecordService.find_missing_records 2
         (snd (Endpoints.clear_batch_records 1 db_two_batches)))
  = fst (RecordService.find_missing_records 2 db_two_batches).
Proof.
  refine (proj1 (record_writes_are_local db_two_batches 1 2
                   {| rc_record_id := 0; rc_status := EXPECTED;
                      rc_record_metadata := None |} [] _ _ _)).
  - done.
  - right. right. reflexivity.
Defined.

(** ** The reconciliation as records arrive *)




(** ** The counts of a reconciliation *)

Lemma set_len_difference_intersection (X Y : gset Z) :
  set_len (X ∖ Y) + set_len (X ∩ Y) = set_len X.
Proof.
  unfold set_len. rewrite <- Nat2Z.inj_add. f_equal.
  rewrite <- size_union.
  - f_equal. apply leibniz_equiv. intros x.
    rewrite elem_of_union, elem_of_difference, elem_of_intersection.
    destruct (decide (x ∈ Y)); tauto.
  - apply elem_of_disjoint. intros x.
    rewrite elem_of_difference, elem_of_intersection. tauto.
Qed.

(** X11. In every reconciliation the two sides balance: the expected
    identifiers that are not missing are as many as the processed
    identifiers that are not unexpected (both are the identifiers expected
    and processed), so [total_expected - missing_count =
    total_processed - unexpected_count]; no count is negative, the missing
    are at most the expected, the unexpected at most the processed, and no
    identifier is both missing and unexpected. *)
Theorem reconciliation_balance (db : Session) (batch_id : Z) :
  batch_id ∈ batch_ids db →
  ∃ r, RecordService.find_missing_records batch_id db = (Returns r, db)
    ∧ total_expected r - missing_count r
      = total_processed r - unexpected_count r
    ∧ 0 ≤ missing_count r ≤ total_expected r
    ∧ 0 ≤ unexpected_count r ≤ total_processed r
    ∧ (∀ x, x ∈ missing_records r → x ∉ unexpected_records r)
    ∧ (missing_count r = 0 ↔
       ∀ x, has_id db batch_id EXPECTED x → has_id db batch_id PROCESSED x).
Proof.
  intros (b & Hb & _ & _)%first_batch_found.
  eexists. split; [by apply find_missing_records_found|]. simpl.
  pose proof (set_len_difference_intersection
                (id_set db batch_id EXPECTED) (id_set db batch_id PROCESSED))
    as HE.
  pose proof (set_len_difference_intersection
                (id_set db batch_id PROCESSED) (id_set db batch_id EXPECTED))
    as HP.
  assert (id_set db batch_id PROCESSED ∩ id_set db batch_id EXPECTED
          = id_set db batch_id EXPECTED ∩ id_set db batch_id PROCESSED)
    as Hcomm.
  { apply leibniz_equiv. intros x. rewrite !elem_of_intersection. tauto. }
  rewrite Hcomm in HP.
  unfold set_len in *.
  split; [lia|]. split; [lia|]. split; [lia|].
  split.
  { intros x. rewrite !elem_of_sorted_elements, !elem_of_difference. tauto. }
  split.
  - intros Hzero x HxE. apply elem_of_id_set.
    destruct (decide (x ∈ id_set db batch_id PROCESSED)) as [|Hnot]; [done|].
    assert (size (id_set db batch_id EXPECTED ∖ id_set db batch_id PROCESSED)
            = 0%nat) as Hsz by lia.
    apply size_empty_iff in Hsz.
    exfalso. apply (not_elem_of_empty (C:=gset Z) x). rewrite <- Hsz.
    apply elem_of_difference. split; [by apply elem_of_id_set|done].
  - intros Hall.
    cut (size (id_set db batch_id EXPECTED ∖ id_set db batch_id PROCESSED)
         = 0%nat); [lia|].
    apply size_empty_iff.
    intros x. rewrite elem_of_difference, !elem_of_id_set.
    split; [|by intros ?%not_elem_of_empty]. intros [HxE HxP].
    by destruct HxP; apply Hall.
Qed.

Lemma reconciliation_balance_witness :
  ∃ r, RecordService.find_missing_records 1 db_orders = (Returns r, db_orders)
    ∧ total_expected r - missing_count r = 3.
Proof.
  destruct (reconciliation_balance db_orders 1) as (r & Hr & _); [by left|].
  exists r. split; [exact Hr|].
  vm_compute in Hr. by injection Hr as <-.
Defined.

(** ** The three views of one batch *)

(** X12. For every stored batch the three analyses agree with each other:
    they name the same batch; the statistics carry the reconciliation's
    missing count and processing rate and the status view's two row counts,
    whose sum is the total; an identifier is a missing record exactly when
    the status view lists it as expected and not as processed, and an
    unexpected record exactly when it is listed as processed and not as
    expected. *)
Theorem analysis_views_agree (db : Session) (batch_id : Z) :
  batch_id ∈ batch_ids db →
  ∃ r p s,
    RecordService.find_missing_records batch_id db = (Returns r, db)
    ∧ RecordService.get_processing_status batch_id db = (Returns p, db)
    ∧ RecordService.get_batch_statistics batch_id db = (Returns s, db)
    ∧ mr_batch_name r = ps_batch_name p ∧ st_batch_name s = ps_batch_name p
    ∧ st_missing_count s = missing_count r
    ∧ st_processing_rate s = processing_rate r
    ∧ st_expected_count s = expected_count p
    ∧ st_processed_count s = processed_count p
    ∧ total_records s = expected_count p + processed_count p
    ∧ (∀ x, x ∈ missing_records r ↔
            x ∈ expected_records p ∧ x ∉ processed_records p)
    ∧ (∀ x, x ∈ unexpected_records r ↔
            x ∈ processed_records p ∧ x ∉ expected_records p).
Proof.
  intros (b & Hb & _ & _)%first_batch_found.
  do 3 eexists.
  split; [by apply find_missing_records_found|].
  split; [by apply get_processing_status_found|].
  split; [by apply get_batch_statistics_found|]. simpl.
  pose proof (len_rows_by_status db batch_id) as Hsplit.
  assert (∀ st, len (id_column db batch_id st) = len (rows_with db batch_id st))
    as Hcol by (intros st; unfold id_column, len; by rewrite length_fmap).
  split; [done|]. split; [done|]. split; [done|]. split; [done|].
  split; [by rewrite Hcol|]. split; [by rewrite Hcol|].
  split; [by rewrite !Hcol|].
  split; intros x;
    rewrite elem_of_sorted_elements, elem_of_difference, !elem_of_sorted;
    unfold id_set; by rewrite !elem_of_list_to_set.
Qed.

Lemma analysis_views_agree_witness :
  ∃ r s,
    RecordService.find_missing_records 1 db_orders = (Returns r, db_orders)
    ∧ RecordService.get_batch_statistics 1 db_orders = (Returns s, db_orders)
    ∧ st_processing_rate s = processing_rate r.
Proof.
  destruct (analysis_views_agree db_orders 1)
    as (r & p & s & Hr & _ & Hs & _ & _ & _ & Hrate & _); [by left|].
  by exists r, s.
Defined.

(** ** Listing the records of a batch *)



(** ** A batch without records *)

Lemma id_set_no_rows (db : Session) (batch_id : Z) (st : RecordStatus) :
  rows_of db batch_id = [] →
  rows_with db batch_id st = [] ∧ id_column db batch_id st = []
  ∧ id_set db batch_id st = ∅.
Proof.
  intros Hrows.
  assert (rows_with db batch_id st = []) as Hwith
    by (by rewrite rows_with_rows_of, Hrows).
  unfold id_set, id_column. by rewrite Hwith.
Qed.

(** X14. For a stored batch that has no record (just created, or cleared)
    the three analysis endpoints answer 200: the reconciliation with zero
    counts, empty lists of missing and unexpected records and rate 0.0, the
    status view with two empty lists and zero counts, the statistics with
    all five figures zero. *)
Theorem analysis_of_batch_without_rows (db : Session) (batch_id : Z) :
  batch_id ∈ batch_ids db →
  rows_of db batch_id = [] →
  ∃ b,
    BatchService.get_batch_by_id batch_id db = (Returns (Some b), db)
    ∧ Endpoints.analyze_missing_records batch_id db
      = (Success HTTP_200_OK
           {| mr_batch_id := batch_id;
              mr_batch_name := Batch.batch_name b;
              total_expected := 0;
              total_processed := 0;
              missing_count := 0;
              missing_records := [];
              processing_rate := 0%float;
              unexpected_count := 0;
              unexpected_records := [] |},
         db)
    ∧ Endpoints.get_processing_status batch_id db
      = (Success HTTP_200_OK
           {| ps_batch_id := batch_id;
              ps_batch_name := Batch.batch_name b;
              ps_record_type := Batch.record_type b;
              expected_records := [];
              processed_records := [];
              expected_count := 0;
              processed_count := 0 |},
         db)
    ∧ Endpoints.get_batch_statistics batch_id db
      = (Success HTTP_200_OK
           {| st_batch_id := batch_id;
              st_batch_name := Batch.batch_name b;
              total_records := 0;
              st_expected_count := 0;
              st_processed_count := 0;
              st_missing_count := 0;
              st_processing_rate := 0%float |},
         db).
Proof.
  intros Hb Hrows.
  pose proof (first_batch_found db batch_id Hb) as (b & Hfirst & _ & _).
  destruct (id_set_no_rows db batch_id EXPECTED Hrows) as (HwE & HcE & HsE).
  destruct (id_set_no_rows db batch_id PROCESSED Hrows) as (HwP & HcP & HsP).
  exists b. split.
  { unfold BatchService.get_batch_by_id, query_batch_first.
    by rewrite Hfirst. }
  unfold Endpoints.analyze_missing_records, Endpoints.get_processing_status,
    Endpoints.get_batch_statistics, try_except.
  rewrite (find_missing_records_found db batch_id b Hfirst),
    (get_processing_status_found db batch_id b Hfirst),
    (get_batch_statistics_found db batch_id b Hfirst).
  fold (rows_of db batch_id). rewrite Hrows, HwE, HwP, HcE, HcP, HsE, HsP.
  repeat split.
Qed.

Lemma analysis_of_batch_without_rows_witness :
  status_of (fst (Endpoints.analyze_missing_records 1
                    (with_records db_orders []))) = 200.
Proof.
  destruct (analysis_of_batch_without_rows (with_records db_orders []) 1)
    as (b & _ & Hr & _); [by left|reflexivity|].
  by rewrite Hr.
Defined.

(** ** The rate at its two ends *)

(** X15. For a stored batch with at least one and at most 200 distinct
    expected identifiers, the processing rate is exactly 100.0 when and only
    when no record is missing, and exactly 0.0 when and only when every
    expected record is missing; in every case it is the double of a number
    of hundredths between 0 and 10000. *)
Theorem processing_rate_extremes (db : Session) (batch_id : Z) :
  batch_id ∈ batch_ids db →
  0 < set_len (id_set db batch_id EXPECTED) ≤ 200 →
  ∃ r, RecordService.find_missing_records batch_id db = (Returns r, db)
    ∧ (processing_rate r = 100%float ↔ missing_count r = 0)
    ∧ (processing_rate r = 0%float ↔ missing_count r = total_expected r)
    ∧ ∃ k, 0 ≤ k ≤ 10000 ∧ processing_rate r = (Z2f k / Z2f 100)%float.
Proof.
  intros (b & Hb & _ & _)%first_batch_found Ht.
  eexists. split; [by apply find_missing_records_found|]. simpl.
  pose proof (set_len_difference_intersection
                (id_set db batch_id EXPECTED) (id_set db batch_id PROCESSED))
    as Hbal.
  set (t := set_len (id_set db batch_id EXPECTED)) in *.
  set (s := set_len (id_set db batch_id EXPECTED
                     ∩ id_set db batch_id PROCESSED)) in *.
  set (m := set_len (id_set db batch_id EXPECTED
                     ∖ id_set db batch_id PROCESSED)) in *.
  assert (0 ≤ s ∧ 0 ≤ m) as [Hs Hm] by (unfold s, m, set_len; lia).
  assert (forallb (λ t, forallb (λ s, rate_extremes_checked s t)
                                (seqZ 0 (t + 1)))
                  (seqZ 1 200) = true) as Hall
    by (vm_cast_no_check (eq_refl true)).
  pose proof (forallb_seqZ_elim _ 1 200 t Hall ltac:(lia)) as Hrow.
  simpl in Hrow.
  pose proof (forallb_seqZ_elim _ 0 (t + 1) s Hrow ltac:(lia)) as Hst.
  simpl in Hst. unfold rate_extremes_checked in Hst.
  apply andb_true_iff in Hst as [H100 H0].
  apply bool_decide_eq_true in H100. apply bool_decide_eq_true in H0.
  split; [|split].
  - split.
    + intros Hr. cut (s = t); [lia|]. apply H100. by rewrite Hr.
    + intros Hz. apply Prim2SF_inj, H100. lia.
  - split.
    + intros Hr. cut (s = 0); [lia|]. apply H0. by rewrite Hr.
    + intros Hz. apply Prim2SF_inj, H0. lia.
  - destruct (rate_nearest_hundredth_small s t) as (k & Hk & Hnear);
      [lia|lia|].
    exists k. split; [|exact Hk]. unfold nearest_hundredths in Hnear. nia.
Qed.

Lemma processing_rate_extremes_witness :
  ∃ r, RecordService.find_missing_records 1 db_orders = (Returns r, db_orders)
    ∧ (processing_rate r = 100%float ↔ missing_count r = 0).
Proof.
  destruct (processing_rate_extremes db_orders 1) as (r & Hr & H100 & _).
  - by left.
  - by vm_compute.
  - by exists r.
Defined.

(** ** The seeding script *)






(** X18. Run without [clear_first] on a store that already has a batch with
    the file's name, the seeding script fails on the unique name when it
    commits the batch: it raises the integrity error, writes no batch and no
    record, and leaves the store as it was. *)
Theorem load_sample_data_name_taken (data : SeedData.SampleData)
    (db : Session) :
  bc_batch_name (SeedData.batch data) ∈ batch_names db →
  ∃ msg,
    SeedData.load_sample_data data false db = (Raises (IntegrityError msg), db).
Proof.
  intros Htaken. eexists.
  unfold SeedData.load_sample_data, mbind, M_bind, mret, M_ret,
    add_commit_batch.
  unfold batch_names in Htaken. by rewrite decide_True.
Qed.

Lemma load_sample_data_name_taken_witness :
  ∃ msg,
    SeedData.load_sample_data sample_orders false db_orders
    = (Raises (IntegrityError msg), db_orders).
Proof.
  apply (load_sample_data_name_taken sample_orders db_orders).
  apply (bool_decide_unpack _). by vm_compute.
Defined.
